(** * CSV data-lake automation scripts: model and verified properties

    Two one-shot Python scripts are embedded here:

    - [blueprints/data-solutions/data-platform-minimal/python/main.py]
      (module [Convert]): download each CSV of a fixed list, rewrite it as
      Parquet, upload it under a second prefix;
    - [pyfiles/automate.py] (module [Automate]): upload local CSVs, ensure a
      Dataplex lake, zone and asset exist, sleep, ensure a BigQuery dataset
      and one table per CSV exist.

    Every SDK or operating-system call is a [call] answered by an
    environment ([Service]); a run returns an outcome, the environment's
    final state and the list of effects it produced, in order. *)

From Stdlib Require Import String Ascii List ZArith Bool Arith Lia.
Import ListNotations.
Local Open Scope list_scope.
Local Open Scope string_scope.

(* ===================================================================== *)
(** ** Python string primitives used by the scripts *)
(* ===================================================================== *)

Module PyStr.

(** [s.startswith(p)] *)
Fixpoint startswith (p s : string) : bool :=
  match p, s with
  | EmptyString, _ => true
  | String _ _, EmptyString => false
  | String a p', String b s' => Ascii.eqb a b && startswith p' s'
  end.

(** [sub in s]: [sub] occurs in [s] at some offset. *)
Fixpoint contains (sub s : string) : bool :=
  startswith sub s
  || match s with
     | EmptyString => false
     | String _ s' => contains sub s'
     end.

(** [s.endswith(suf)]: some tail of [s] is [suf]. *)
Fixpoint endswith (s suf : string) : bool :=
  String.eqb s suf
  || match s with
     | EmptyString => false
     | String _ s' => endswith s' suf
     end.

(** [s.replace("", new)]: [new] before every character and at the end. *)
Fixpoint interleave (new s : string) : string :=
  match s with
  | EmptyString => new
  | String c s' => new ++ String c (interleave new s')
  end.

(** Left-to-right scan of [s.replace(old, new)] for a non-empty [old];
    [skip] counts the characters of a match still to be dropped. *)
Fixpoint replace_from (old new : string) (skip : nat) (s : string) : string :=
  match s with
  | EmptyString => EmptyString
  | String c s' =>
      match skip with
      | S k => replace_from old new k s'
      | O =>
          if startswith old s
          then new ++ replace_from old new (String.length old - 1) s'
          else String c (replace_from old new 0 s')
      end
  end.

(** [s.replace(old, new)]: every non-overlapping occurrence, from the left. *)
Definition replace (old new s : string) : string :=
  match old with
  | EmptyString => interleave new s
  | String _ _ => replace_from old new 0 s
  end.

(** [os.path.basename(p)] (posixpath): what follows the last slash. *)
Fixpoint basename (p : string) : string :=
  match p with
  | EmptyString => EmptyString
  | String c p' =>
      if contains "/" p' then basename p'
      else if Ascii.eqb c "/"%char then p' else p
  end.

(** [os.path.join(a, b)] (posixpath, two components). *)
Definition join (a b : string) : string :=
  if startswith "/" b then b
  else if (String.eqb a "" || endswith a "/")%bool then a ++ b
  else a ++ "/" ++ b.

End PyStr.

(* ===================================================================== *)
(** ** Exceptions *)
(* ===================================================================== *)

(** The exception classes the scripts tell apart.  [Conflict] and [NotFound]
    are the [google.api_core.exceptions] classes (with their subclasses);
    [OtherException] is any other subclass of [Exception]; [BaseOnly] is a
    [BaseException] that is not an [Exception] ([KeyboardInterrupt],
    [SystemExit]).  The string is [str(e)]. *)
Inductive exn : Type :=
| Conflict (msg : string)
| NotFound (msg : string)
| OtherException (cls msg : string)
| BaseOnly (cls msg : string).

Definition exn_str (e : exn) : string :=
  match e with
  | Conflict m | NotFound m | OtherException _ m | BaseOnly _ m => m
  end.

Definition is_Conflict (e : exn) : bool :=
  match e with Conflict _ => true | _ => false end.

Definition is_NotFound (e : exn) : bool :=
  match e with NotFound _ => true | _ => false end.

(** [isinstance(e, Exception)] *)
Definition is_Exception (e : exn) : bool :=
  match e with BaseOnly _ _ => false | _ => true end.

Inductive outcome (A : Type) : Type :=
| Ok (v : A)
| Raise (e : exn).
Arguments Ok {A} v.
Arguments Raise {A} e.

(* ===================================================================== *)
(** ** Messages exchanged with the cloud SDKs *)
(* ===================================================================== *)

(** [dataplex_v1.Lake]; [lake_name] is output-only and empty on a request. *)
Record Lake : Type := {
  lake_name : string;
  lake_display_name : string
}.

Inductive ZoneType : Type := RAW | CURATED.
Inductive LocationType : Type := SINGLE_REGION | MULTI_REGION.

(** [DiscoverySpec.CsvOptions], the same shape for zones and assets. *)
Record CsvOptions : Type := {
  header_rows : Z;
  delimiter : string;
  disable_type_inference : bool
}.

Record DiscoverySpec : Type := {
  enabled : bool;
  csv_options : CsvOptions
}.

Record ZoneResourceSpec : Type := {
  location_type : LocationType
}.

Record Zone : Type := {
  zone_name : string;
  zone_display_name : string;
  zone_type_ : ZoneType;
  zone_resource_spec : ZoneResourceSpec;
  zone_discovery_spec : DiscoverySpec
}.

Inductive AssetResourceType : Type := STORAGE_BUCKET | BIGQUERY_DATASET.

Record AssetResourceSpec : Type := {
  asset_resource_type_ : AssetResourceType;
  asset_resource_name : string
}.

Record Asset : Type := {
  asset_name : string;
  asset_display_name : string;
  asset_resource_spec : AssetResourceSpec;
  asset_discovery_spec : DiscoverySpec
}.

(** A long-running operation handle returned by a Dataplex create call. *)
Record Operation : Type := {
  operation_name : string
}.

Record DatasetReference : Type := {
  ref_project : string;
  ref_dataset_id : string
}.

Record Dataset : Type := {
  dataset_reference : DatasetReference;
  dataset_location : option string
}.

Record TableReference : Type := {
  table_dataset : DatasetReference;
  table_id : string
}.

Inductive SourceFormat : Type := CSV | PARQUET | NEWLINE_DELIMITED_JSON.

(** [bigquery.LoadJobConfig]: the configuration of a load job. *)
Record LoadJobConfig : Type := {
  source_format : SourceFormat;
  skip_leading_rows : Z;
  autodetect : bool;
  max_bad_records : Z
}.

Record LoadJob : Type := {
  job_destination : TableReference
}.

(** [Table.table_type] as the BigQuery API reports it. *)
Inductive TableType : Type := TABLE | EXTERNAL | VIEW.

Record Table : Type := {
  table_reference : TableReference;
  table_type : TableType;
  table_source_uris : list string
}.

(** Opaque in-memory values of pandas and pyarrow. *)
Record DataFrame : Type := { frame_id : nat }.
Record ArrowTable : Type := { arrow_id : nat }.

(* ===================================================================== *)
(** ** Calls into the environment *)
(* ===================================================================== *)

Inductive call : Type :=
(* os *)
| PathExists (path : string)
| ListDir (path : string)
(* google.cloud.storage *)
| NewStorageClient (project : option string)
| BlobDownloadToFilename (bucket blob filename : string)
| BlobUploadFromFilename (bucket blob filename : string)
(* pandas / pyarrow *)
| ReadCsv (path : string)
| TableFromPandas (df : DataFrame)
| WriteTable (table : ArrowTable) (path : string)
(* google.cloud.dataplex_v1 *)
| NewDataplexClient
| CreateLake (parent lake_id : string) (lake : Lake)
| LakeOperationResult (op : Operation) (timeout : Z)
| GetLake (name : string)
| CreateZone (parent zone_id : string) (zone : Zone)
| ZoneOperationResult (op : Operation) (timeout : Z)
| GetZone (name : string)
| CreateAsset (parent asset_id : string) (asset : Asset)
| AssetOperationResult (op : Operation) (timeout : Z)
| GetAsset (name : string)
(* google.cloud.bigquery *)
| NewBigQueryClient (project : string)
| CreateDataset (dataset : Dataset)
| GetDataset (ref : DatasetReference)
| GetTable (ref : TableReference)
| LoadTableFromUri (uri : string) (ref : TableReference) (cfg : LoadJobConfig)
| LoadJobResult (job : LoadJob).

(** What a call returns when it does not raise. *)
Definition ret_type (c : call) : Type :=
  match c with
  | PathExists _ => bool
  | ListDir _ => list string
  | NewStorageClient _ => unit
  | BlobDownloadToFilename _ _ _ => unit
  | BlobUploadFromFilename _ _ _ => unit
  | ReadCsv _ => DataFrame
  | TableFromPandas _ => ArrowTable
  | WriteTable _ _ => unit
  | NewDataplexClient => unit
  | CreateLake _ _ _ => Operation
  | LakeOperationResult _ _ => Lake
  | GetLake _ => Lake
  | CreateZone _ _ _ => Operation
  | ZoneOperationResult _ _ => Zone
  | GetZone _ => Zone
  | CreateAsset _ _ _ => Operation
  | AssetOperationResult _ _ => Asset
  | GetAsset _ => Asset
  | NewBigQueryClient _ => unit
  | CreateDataset _ => Dataset
  | GetDataset _ => Dataset
  | GetTable _ => Table
  | LoadTableFromUri _ _ _ => LoadJob
  | LoadJobResult _ => unit
  end.

(** An environment: a state and its answer to each call. *)
Class Service (S : Type) : Type :=
  handle : forall c : call, S -> outcome (ret_type c) * S.

(** The observable effects of a run. *)
Inductive event : Type :=
| EvPrint (msg : string)
| EvSleep (seconds : Z)
| EvCall (c : call).

(* ===================================================================== *)
(** ** The effect monad *)
(* ===================================================================== *)

(** A computation maps the environment's state to an outcome, the new
    state and the effects produced on the way. *)
Definition M (S A : Type) : Type := S -> outcome A * S * list event.

Section Monad.
Context {S : Type}.

Definition ret {A} (v : A) : M S A := fun s => (Ok v, s, []).

Definition raise {A} (e : exn) : M S A := fun s => (Raise e, s, []).

Definition bind {A B} (m : M S A) (k : A -> M S B) : M S B :=
  fun s =>
    match m s with
    | (Ok v, s1, ev1) =>
        let '(r, s2, ev2) := k v s1 in (r, s2, (ev1 ++ ev2)%list)
    | (Raise e, s1, ev1) => (Raise e, s1, ev1)
    end.

Definition print (msg : string) : M S unit :=
  fun s => (Ok tt, s, [EvPrint msg]).

(** [time.sleep(seconds)] *)
Definition sleep (seconds : Z) : M S unit :=
  fun s => (Ok tt, s, [EvSleep seconds]).

Definition invoke `{Service S} (c : call) : M S (ret_type c) :=
  fun s => let '(r, s1) := handle c s in (r, s1, [EvCall c]).

(** The first [except] clause whose class test accepts [e]. *)
Fixpoint select_clause {A} (clauses : list ((exn -> bool) * (exn -> M S A)))
    (e : exn) : option (M S A) :=
  match clauses with
  | [] => None
  | (accepts, handler) :: rest =>
      if accepts e then Some (handler e) else select_clause rest e
  end.

(** [try: body except C1: h1 except C2 as e: h2 ...].  An exception raised
    by the selected handler is not offered to the other clauses. *)
Definition try_except {A} (body : M S A)
    (clauses : list ((exn -> bool) * (exn -> M S A))) : M S A :=
  fun s =>
    match body s with
    | (Ok v, s1, ev1) => (Ok v, s1, ev1)
    | (Raise e, s1, ev1) =>
        match select_clause clauses e with
        | Some h => let '(r, s2, ev2) := h s1 in (r, s2, (ev1 ++ ev2)%list)
        | None => (Raise e, s1, ev1)
        end
    end.

(** [for x in l: body(x)] *)
Fixpoint for_each {A} (l : list A) (body : A -> M S unit) : M S unit :=
  match l with
  | [] => ret tt
  | x :: rest => bind (body x) (fun _ => for_each rest body)
  end.

End Monad.

Declare Scope py_scope.
Delimit Scope py_scope with py.
Notation "x <- m ;; k" := (bind m (fun x => k))
  (at level 61, m at next level, right associativity) : py_scope.
Notation "m ;; k" := (bind m (fun _ => k))
  (at level 61, right associativity) : py_scope.

Definition result_of {S A} (r : outcome A * S * list event) : outcome A := fst (fst r).
Definition state_of {S A} (r : outcome A * S * list event) : S := snd (fst r).
Definition events_of {S A} (r : outcome A * S * list event) : list event := snd r.

Local Open Scope py_scope.

(* ===================================================================== *)
(** ** [data-platform-minimal/python/main.py]: CSV to Parquet *)
(* ===================================================================== *)

Module Convert.

Definition bucket_name : string := "demo-lnd-cs-0".
Definition source_prefix : string := "synthea/".
Definition target_prefix : string := "landing-parquet/".

Definition csv_files : list string :=
  [ "allergies.csv"; "careplans.csv"; "claims.csv"; "claims_transactions.csv";
    "conditions.csv"; "devices.csv"; "encounters.csv"; "imaging_studies.csv";
    "immunizations.csv"; "medications.csv"; "observations.csv"; "organizations.csv";
    "patients.csv"; "payer_transitions.csv"; "payers.csv"; "procedures.csv";
    "providers.csv"; "supplies.csv" ].

Section Script.
Context {S : Type} `{Service S}.

(** The body of the [for file in csv_files] loop. *)
Definition convert_file (file : string) : M S unit :=
  (* Download CSV to temp *)
  let blob := source_prefix ++ file in
  let local_csv := "/tmp/" ++ file in
  invoke (BlobDownloadToFilename bucket_name blob local_csv);;
  (* Convert to Parquet *)
  df <- invoke (ReadCsv local_csv);;
  table <- invoke (TableFromPandas df);;
  let local_parquet := PyStr.replace ".csv" ".parquet" local_csv in
  invoke (WriteTable table local_parquet);;
  (* Upload to GCS landing-parquet/ *)
  let parquet_blob := target_prefix ++ PyStr.replace ".csv" ".parquet" file in
  invoke (BlobUploadFromFilename bucket_name parquet_blob local_parquet);;
  print ("Uploaded " ++ file ++ " as Parquet.").

(** The whole module body. *)
Definition script : M S unit :=
  invoke (NewStorageClient None);;
  for_each csv_files convert_file.

End Script.

(** The calls one file goes through, whatever the opaque values are. *)
Inductive step : Type :=
| Download (blob filename : string)
| Parse (path : string)
| ToArrow
| WriteParquet (path : string)
| Upload (blob filename : string)
| Report (msg : string)
| Other.

Definition step_of (e : event) : step :=
  match e with
  | EvCall (BlobDownloadToFilename _ blob filename) => Download blob filename
  | EvCall (ReadCsv path) => Parse path
  | EvCall (TableFromPandas _) => ToArrow
  | EvCall (WriteTable _ path) => WriteParquet path
  | EvCall (BlobUploadFromFilename _ blob filename) => Upload blob filename
  | EvPrint msg => Report msg
  | _ => Other
  end.

(** The steps of one iteration as the code computes its keys. *)
Definition computed_steps (file : string) : list step :=
  [ Download (source_prefix ++ file) ("/tmp/" ++ file);
    Parse ("/tmp/" ++ file);
    ToArrow;
    WriteParquet (PyStr.replace ".csv" ".parquet" ("/tmp/" ++ file));
    Upload (target_prefix ++ PyStr.replace ".csv" ".parquet" file)
           (PyStr.replace ".csv" ".parquet" ("/tmp/" ++ file));
    Report ("Uploaded " ++ file ++ " as Parquet.") ].



(** The file name without its last four characters. *)
Definition stem (file : string) : string :=
  String.substring 0 (String.length file - 4) file.

(** The steps expected for one file: the output key mirrors the input
    key, with the extension substituted. *)
Definition mirrored_steps (file : string) : list step :=
  [ Download ("synthea/" ++ file) ("/tmp/" ++ file);
    Parse ("/tmp/" ++ file);
    ToArrow;
    WriteParquet ("/tmp/" ++ stem file ++ ".parquet");
    Upload ("landing-parquet/" ++ stem file ++ ".parquet")
           ("/tmp/" ++ stem file ++ ".parquet");
    Report ("Uploaded " ++ file ++ " as Parquet.") ].

End Convert.

(* ===================================================================== *)
(** ** [pyfiles/automate.py]: Dataplex and BigQuery provisioning *)
(* ===================================================================== *)

Module Automate.

Definition REGION : string := "us-central1".
Definition GCS_BUCKET_NAME : string := "your-csv-source-bucket".
Definition LAKE_ID : string := "my-csv-lake".
Definition ZONE_ID : string := "raw-csv-data".
Definition ASSET_ID : string := "csv-files-asset".
Definition BIGQUERY_DATASET_ID : string := "raw_csv_data_bq".
Definition LOCAL_CSV_DIR : string := "csv_files".

(** A line feed, for the messages that start with one. *)
Definition nl : string := String (Ascii.ascii_of_nat 10) EmptyString.

(** [os.environ.get("GOOGLE_CLOUD_PROJECT") or "your-gcp-project-id"] *)
Definition project_id_of (env_value : option string) : string :=
  match env_value with
  | Some (String c rest) => String c rest
  | _ => "your-gcp-project-id"
  end.

(** The [dataplex_v1.Lake(...)] message of [create_dataplex_lake]. *)
Definition lake_message (display_name : string) : Lake :=
  {| lake_name := ""; lake_display_name := display_name |}.

(** The [dataplex_v1.Zone(...)] message of [create_dataplex_zone]. *)
Definition zone_message (region display_name : string) : Zone :=
  {| zone_name := "";
     zone_display_name := display_name;
     zone_type_ := RAW;
     zone_resource_spec :=
       {| location_type :=
            if (PyStr.contains "us" region || PyStr.contains "eu" region)%bool
            then MULTI_REGION else SINGLE_REGION |};
     zone_discovery_spec :=
       {| enabled := true;
          csv_options :=
            {| header_rows := 1; delimiter := ",";
               disable_type_inference := false |} |} |}.

(** The [dataplex_v1.Asset(...)] message of [create_dataplex_asset]. *)
Definition asset_message (project_id asset_id bucket_name : string) : Asset :=
  let gcs_resource_name := "projects/" ++ project_id ++ "/buckets/" ++ bucket_name in
  {| asset_name := "";
     asset_display_name := asset_id;
     asset_resource_spec :=
       {| asset_resource_type_ := STORAGE_BUCKET;
          asset_resource_name := gcs_resource_name |};
     asset_discovery_spec :=
       {| enabled := true;
          csv_options :=
            {| header_rows := 1; delimiter := ",";
               disable_type_inference := false |} |} |}.

(** The [bigquery.LoadJobConfig(...)] of the table function. *)
Definition load_job_config (skip : Z) : LoadJobConfig :=
  {| source_format := CSV;
     skip_leading_rows := skip;
     autodetect := true;
     max_bad_records := 0 |}.

Section Script.
Context {S : Type} `{Service S}.
(** The value of the environment variable [GOOGLE_CLOUD_PROJECT]. *)
Variable GOOGLE_CLOUD_PROJECT : option string.

Definition PROJECT_ID : string := project_id_of GOOGLE_CLOUD_PROJECT.

Definition upload_csv_to_gcs
    (local_file_path bucket_name destination_blob_name : string) : M S unit :=
  invoke (NewStorageClient (Some PROJECT_ID));;
  try_except
    (invoke (BlobUploadFromFilename bucket_name destination_blob_name local_file_path);;
     print ("Uploaded " ++ local_file_path ++ " to gs://" ++ bucket_name ++ "/"
            ++ destination_blob_name))
    [ (is_Exception, fun e =>
         print ("Error uploading " ++ local_file_path ++ ": " ++ exn_str e);;
         raise e) ].

Definition create_dataplex_lake
    (project_id region lake_id display_name : string) : M S Lake :=
  invoke NewDataplexClient;;
  let parent := "projects/" ++ project_id ++ "/locations/" ++ region in
  let lake := lake_message display_name in
  try_except
    (operation <- invoke (CreateLake parent lake_id lake);;
     print ("Creating lake " ++ lake_id ++ "...");;
     response <- invoke (LakeOperationResult operation 300);;
     print ("Lake " ++ lake_name response ++ " created successfully.");;
     ret response)
    [ (is_Conflict, fun _ =>
         print ("Lake " ++ lake_id ++ " already exists.");;
         invoke (GetLake (parent ++ "/lakes/" ++ lake_id)));
      (is_Exception, fun e =>
         print ("Error creating lake " ++ lake_id ++ ": " ++ exn_str e);;
         raise e) ].

Definition create_dataplex_zone
    (project_id region lake_id zone_id display_name : string) : M S Zone :=
  invoke NewDataplexClient;;
  let parent := "projects/" ++ project_id ++ "/locations/" ++ region
                ++ "/lakes/" ++ lake_id in
  let zone := zone_message region display_name in
  try_except
    (operation <- invoke (CreateZone parent zone_id zone);;
     print ("Creating zone " ++ zone_id ++ "...");;
     response <- invoke (ZoneOperationResult operation 300);;
     print ("Zone " ++ zone_name response ++ " created successfully.");;
     ret response)
    [ (is_Conflict, fun _ =>
         print ("Zone " ++ zone_id ++ " already exists.");;
         invoke (GetZone (parent ++ "/zones/" ++ zone_id)));
      (is_Exception, fun e =>
         print ("Error creating zone " ++ zone_id ++ ": " ++ exn_str e);;
         raise e) ].

Definition create_dataplex_asset
    (project_id region lake_id zone_id asset_id bucket_name bq_dataset_id : string)
    : M S Asset :=
  invoke NewDataplexClient;;
  let parent := "projects/" ++ project_id ++ "/locations/" ++ region
                ++ "/lakes/" ++ lake_id ++ "/zones/" ++ zone_id in
  let asset := asset_message project_id asset_id bucket_name in
  try_except
    (operation <- invoke (CreateAsset parent asset_id asset);;
     print ("Creating asset " ++ asset_id ++ "...");;
     response <- invoke (AssetOperationResult operation 300);;
     print ("Asset " ++ asset_name response ++ " created successfully.");;
     ret response)
    [ (is_Conflict, fun _ =>
         print ("Asset " ++ asset_id ++ " already exists.");;
         invoke (GetAsset (parent ++ "/assets/" ++ asset_id)));
      (is_Exception, fun e =>
         print ("Error creating asset " ++ asset_id ++ ": " ++ exn_str e);;
         raise e) ].

Definition create_bigquery_dataset
    (project_id dataset_id region : string) : M S Dataset :=
  invoke (NewBigQueryClient project_id);;
  let dataset_ref := {| ref_project := project_id; ref_dataset_id := dataset_id |} in
  let dataset := {| dataset_reference := dataset_ref;
                    dataset_location := Some region |} in
  try_except
    (created <- invoke (CreateDataset dataset);;
     print ("BigQuery dataset " ++ ref_project (dataset_reference created) ++ "."
            ++ ref_dataset_id (dataset_reference created) ++ " created.");;
     ret created)
    [ (is_Conflict, fun _ =>
         print ("BigQuery dataset " ++ ref_project (dataset_reference dataset) ++ "."
                ++ ref_dataset_id (dataset_reference dataset) ++ " already exists.");;
         invoke (GetDataset dataset_ref));
      (is_Exception, fun e =>
         print ("Error creating BigQuery dataset " ++ dataset_id ++ ": " ++ exn_str e);;
         raise e) ].

(** Returns [None] for Python's bare [return]. *)
Definition create_bigquery_external_table_from_csv
    (project_id dataset_id table_id gcs_uri : string) (skip_leading_rows : Z)
    : M S (option Table) :=
  invoke (NewBigQueryClient project_id);;
  let dataset_ref := {| ref_project := project_id; ref_dataset_id := dataset_id |} in
  let table_ref := {| table_dataset := dataset_ref; table_id := table_id |} in
  let job_config := load_job_config skip_leading_rows in
  try_except
    ((* Check if table already exists *)
     invoke (GetTable table_ref);;
     print ("BigQuery table " ++ table_id ++ " already exists. Skipping creation.");;
     ret None)
    [ (is_NotFound, fun _ =>
         print ("Creating BigQuery external table " ++ table_id ++ " from "
                ++ gcs_uri ++ "...");;
         load_job <- invoke (LoadTableFromUri gcs_uri table_ref job_config);;
         invoke (LoadJobResult load_job);;
         print ("BigQuery external table " ++ table_id ++ " created successfully.");;
         t <- invoke (GetTable table_ref);;
         ret (Some t));
      (is_Exception, fun e =>
         print ("Error creating BigQuery external table " ++ table_id ++ ": "
                ++ exn_str e);;
         raise e) ].

(** [# 2.], the loop: upload each file and collect its URI. *)
Fixpoint upload_all (csv_files gcs_file_uris : list string) : M S (list string) :=
  match csv_files with
  | [] => ret gcs_file_uris
  | csv_file :: rest =>
      let local_path := PyStr.join LOCAL_CSV_DIR csv_file in
      let destination_blob_name := "csv_data/" ++ csv_file in
      upload_csv_to_gcs local_path GCS_BUCKET_NAME destination_blob_name;;
      upload_all rest
        (app gcs_file_uris ["gs://" ++ GCS_BUCKET_NAME ++ "/" ++ destination_blob_name])
  end.

(** The body of the [for uri in gcs_file_uris] loop. *)
Definition table_step (uri : string) : M S unit :=
  (* Extract table name from the GCS URI *)
  let table_name :=
    PyStr.replace "-" "_" (PyStr.replace ".csv" "" (PyStr.basename uri)) in
  create_bigquery_external_table_from_csv
    PROJECT_ID BIGQUERY_DATASET_ID table_name uri 1;;
  ret tt.

(** [# 7.] and the closing messages. *)
Definition main_step7 (gcs_file_uris : list string) : M S unit :=
  print (nl ++ "--- Creating BigQuery External Tables (direct method) ---");;
  for_each gcs_file_uris table_step;;
  print (nl ++ "--- Automation Complete ---");;
  print ("Dataplex Lake: " ++ LAKE_ID ++ ", Zone: " ++ ZONE_ID ++ ", Asset: "
         ++ ASSET_ID ++ " configured.");;
  print ("CSV files from '" ++ LOCAL_CSV_DIR ++ "' uploaded to gs://"
         ++ GCS_BUCKET_NAME ++ "/csv_data/.");;
  print ("BigQuery Dataset: " ++ BIGQUERY_DATASET_ID ++ ".");;
  print "External BigQuery tables created (or will be auto-discovered by Dataplex) for your CSVs.";;
  print "You can now view and query these tables in the BigQuery console and explore metadata in Dataplex Catalog.".

(** [# 6.] onwards. *)
Definition main_step6 (gcs_file_uris : list string) : M S unit :=
  create_bigquery_dataset PROJECT_ID BIGQUERY_DATASET_ID REGION;;
  main_step7 gcs_file_uris.

(** The messages and the pause between [# 5.] and [# 6.]. *)
Definition discovery_pause : M S unit :=
  print (nl ++ "--- Dataplex Discovery Process Started ---");;
  print ("Dataplex will now discover files in gs://" ++ GCS_BUCKET_NAME
         ++ " and create entities in its Catalog.");;
  print "This may take a few minutes for discovery to complete and BigQuery external tables to appear (if auto-published).";;
  print "You can monitor discovery status in the Dataplex UI under the asset's 'Entities' tab.";;
  (* Give Dataplex some time to perform initial discovery *)
  sleep 60.

(** [# 5.] onwards. *)
Definition main_step5 (gcs_file_uris : list string) : M S unit :=
  create_dataplex_asset PROJECT_ID REGION LAKE_ID ZONE_ID ASSET_ID
    GCS_BUCKET_NAME BIGQUERY_DATASET_ID;;
  discovery_pause;;
  main_step6 gcs_file_uris.

(** [# 4.] onwards. *)
Definition main_step4 (gcs_file_uris : list string) : M S unit :=
  create_dataplex_zone PROJECT_ID REGION LAKE_ID ZONE_ID "Raw CSV Zone";;
  main_step5 gcs_file_uris.

(** [# 3.] onwards. *)
Definition main_step3 (gcs_file_uris : list string) : M S unit :=
  create_dataplex_lake PROJECT_ID REGION LAKE_ID "My CSV Data Lake";;
  main_step4 gcs_file_uris.

Definition main : M S unit :=
  print "--- Starting Dataplex and BigQuery Automation for CSVs ---";;
  (* 2. Upload CSV files to GCS *)
  present <- invoke (PathExists LOCAL_CSV_DIR);;
  if negb present then
    print ("Error: Local CSV directory '" ++ LOCAL_CSV_DIR
           ++ "' not found. Please create it and place CSV files inside.")
  else
    listing <- invoke (ListDir LOCAL_CSV_DIR);;
    let csv_files := filter (fun f => PyStr.endswith f ".csv") listing in
    match csv_files with
    | [] =>
        print ("No CSV files found in '" ++ LOCAL_CSV_DIR
               ++ "'. Please add some CSV files.")
    | _ :: _ =>
        gcs_file_uris <- upload_all csv_files [];;
        main_step3 gcs_file_uris
    end.

End Script.

End Automate.

(* ===================================================================== *)
(** ** Reading runs *)
(* ===================================================================== *)

(** [answers s c r s']: in state [s] the environment answers [c] with [r]
    and moves to [s']. *)
Definition answers {S : Type} `{Service S}
    (s : S) (c : call) (r : outcome (ret_type c)) (s' : S) : Prop :=
  handle c s = (r, s').

(** A run that starts with the effects [evs] and goes on as [r]. *)
Definition after {S A : Type} (evs : list event)
    (r : outcome A * S * list event) : outcome A * S * list event :=
  (result_of r, state_of r, (evs ++ events_of r)%list).

Definition is_client_construction (c : call) : bool :=
  match c with
  | NewStorageClient _ | NewDataplexClient | NewBigQueryClient _ => true
  | _ => false
  end.

(** A request that asks the service to bring a resource into being. *)
Definition is_creation_request (c : call) : bool :=
  match c with
  | CreateLake _ _ _ | CreateZone _ _ _ | CreateAsset _ _ _
  | CreateDataset _ | LoadTableFromUri _ _ _ => true
  | _ => false
  end.

Definition is_bigquery_call (c : call) : bool :=
  match c with
  | NewBigQueryClient _ | CreateDataset _ | GetDataset _ | GetTable _
  | LoadTableFromUri _ _ _ | LoadJobResult _ => true
  | _ => false
  end.

Definition is_bigquery_event (e : event) : bool :=
  match e with EvCall c => is_bigquery_call c | _ => false end.

Definition is_sleep (e : event) : bool :=
  match e with EvSleep _ => true | _ => false end.

(** Neither a BigQuery call nor a pause. *)
Definition quiet (e : event) : bool :=
  negb (is_bigquery_event e) && negb (is_sleep e).

(** Up to the first pause there is no BigQuery call, and that pause lasts
    sixty seconds. *)
Fixpoint bigquery_waits_for_pause (evs : list event) : bool :=
  match evs with
  | [] => true
  | EvSleep n :: _ => Z.eqb n 60
  | e :: rest => negb (is_bigquery_event e) && bigquery_waits_for_pause rest
  end.

(** The requests of a run, in order, client constructions left out. *)
Fixpoint requests (evs : list event) : list call :=
  match evs with
  | [] => []
  | EvCall c :: rest =>
      if is_client_construction c then requests rest else c :: requests rest
  | _ :: rest => requests rest
  end.


Definition creation_requests (evs : list event) : list call :=
  filter is_creation_request (requests evs).

(** The CSV discovery options a creation request carries, if any. *)
Definition request_csv_options (c : call) : option CsvOptions :=
  match c with
  | CreateZone _ _ z => Some (csv_options (zone_discovery_spec z))
  | CreateAsset _ _ a => Some (csv_options (asset_discovery_spec a))
  | _ => None
  end.

Definition is_catalog_creation (c : call) : bool :=
  match c with
  | CreateLake _ _ _ | CreateZone _ _ _ | CreateAsset _ _ _ => true
  | _ => false
  end.

(** The creation request [c], if it is one to the catalog service, carries
    the CSV options [o]. *)
Definition carries_csv_options (o : CsvOptions) (c : call) : Prop :=
  is_catalog_creation c = true -> request_csv_options c = Some o.


(** [sub] occurs somewhere in [s]. *)
Definition occurs_in (sub s : string) : Prop :=
  exists a b, s = a ++ sub ++ b.

(** [s] ends with [suf]. *)
Definition has_suffix (s suf : string) : Prop :=
  exists a, s = a ++ suf.

(* ===================================================================== *)
(** ** A reference environment *)
(* ===================================================================== *)

(** An in-memory stand-in for the operating system and the three cloud
    services, with the behaviour their documentation gives: a create call
    on an existing name is answered by [Conflict], a get on a missing one by
    [NotFound], and a BigQuery load job writes the rows of its source into a
    managed table ([table_type = TABLE]). *)
Module Mock.

Record cloud : Type := {
  directories : list (string * list string);
  objects : list (string * string);
  lakes : list Lake;
  zones : list Zone;
  assets : list Asset;
  datasets : list Dataset;
  tables : list Table
}.

Definition empty : cloud :=
  {| directories := []; objects := []; lakes := []; zones := [];
     assets := []; datasets := []; tables := [] |}.

Definition ref_eqb (a b : DatasetReference) : bool :=
  String.eqb (ref_project a) (ref_project b)
  && String.eqb (ref_dataset_id a) (ref_dataset_id b).

Definition table_ref_eqb (a b : TableReference) : bool :=
  ref_eqb (table_dataset a) (table_dataset b)
  && String.eqb (table_id a) (table_id b).

Definition find_lake (n : string) (s : cloud) : option Lake :=
  find (fun l => String.eqb (lake_name l) n) (lakes s).
Definition find_zone (n : string) (s : cloud) : option Zone :=
  find (fun z => String.eqb (zone_name z) n) (zones s).
Definition find_asset (n : string) (s : cloud) : option Asset :=
  find (fun a => String.eqb (asset_name a) n) (assets s).
Definition find_dataset (r : DatasetReference) (s : cloud) : option Dataset :=
  find (fun d => ref_eqb (dataset_reference d) r) (datasets s).
Definition find_table (r : TableReference) (s : cloud) : option Table :=
  find (fun t => table_ref_eqb (table_reference t) r) (tables s).

Definition add_object (o : string * string) (s : cloud) : cloud :=
  {| directories := directories s; objects := o :: objects s; lakes := lakes s;
     zones := zones s; assets := assets s; datasets := datasets s;
     tables := tables s |}.
Definition add_lake (l : Lake) (s : cloud) : cloud :=
  {| directories := directories s; objects := objects s; lakes := l :: lakes s;
     zones := zones s; assets := assets s; datasets := datasets s;
     tables := tables s |}.
Definition add_zone (z : Zone) (s : cloud) : cloud :=
  {| directories := directories s; objects := objects s; lakes := lakes s;
     zones := z :: zones s; assets := assets s; datasets := datasets s;
     tables := tables s |}.
Definition add_asset (a : Asset) (s : cloud) : cloud :=
  {| directories := directories s; objects := objects s; lakes := lakes s;
     zones := zones s; assets := a :: assets s; datasets := datasets s;
     tables := tables s |}.
Definition add_dataset (d : Dataset) (s : cloud) : cloud :=
  {| directories := directories s; objects := objects s; lakes := lakes s;
     zones := zones s; assets := assets s; datasets := d :: datasets s;
     tables := tables s |}.
Definition add_table (t : Table) (s : cloud) : cloud :=
  {| directories := directories s; objects := objects s; lakes := lakes s;
     zones := zones s; assets := assets s; datasets := datasets s;
     tables := t :: tables s |}.

(** The stored resource: the request's message under its full name. *)
Definition name_lake (n : string) (l : Lake) : Lake :=
  {| lake_name := n; lake_display_name := lake_display_name l |}.
Definition name_zone (n : string) (z : Zone) : Zone :=
  {| zone_name := n;
     zone_display_name := zone_display_name z;
     zone_type_ := zone_type_ z;
     zone_resource_spec := zone_resource_spec z;
     zone_discovery_spec := zone_discovery_spec z |}.
Definition name_asset (n : string) (a : Asset) : Asset :=
  {| asset_name := n;
     asset_display_name := asset_display_name a;
     asset_resource_spec := asset_resource_spec a;
     asset_discovery_spec := asset_discovery_spec a |}.

Definition found {A : Type} (o : option A) (what : string) : outcome A :=
  match o with
  | Some v => Ok v
  | None => Raise (NotFound ("404 " ++ what))
  end.

Definition has_object (bucket blob : string) (s : cloud) : bool :=
  existsb (fun o => String.eqb (fst o) bucket && String.eqb (snd o) blob) (objects s).

Definition mock_handle (c : call) (s : cloud) : outcome (ret_type c) * cloud :=
  match c as c0 return outcome (ret_type c0) * cloud with
  | PathExists p =>
      (Ok (existsb (fun d => String.eqb (fst d) p) (directories s)), s)
  | ListDir p =>
      match find (fun d => String.eqb (fst d) p) (directories s) with
      | Some d => (Ok (snd d), s)
      | None => (Raise (OtherException "FileNotFoundError" p), s)
      end
  | NewStorageClient _ => (Ok tt, s)
  | BlobDownloadToFilename bucket blob _ =>
      if has_object bucket blob s then (Ok tt, s)
      else (Raise (NotFound ("404 " ++ blob)), s)
  | BlobUploadFromFilename bucket blob _ => (Ok tt, add_object (bucket, blob) s)
  | ReadCsv _ => (Ok {| frame_id := 0 |}, s)
  | TableFromPandas df => (Ok {| arrow_id := frame_id df |}, s)
  | WriteTable _ _ => (Ok tt, s)
  | NewDataplexClient => (Ok tt, s)
  | CreateLake parent lake_id lake =>
      let n := parent ++ "/lakes/" ++ lake_id in
      match find_lake n s with
      | Some _ => (Raise (Conflict ("409 " ++ n)), s)
      | None =>
          (Ok {| operation_name := n |},
           add_lake (name_lake n lake) s)
      end
  | LakeOperationResult op _ => (found (find_lake (operation_name op) s) (operation_name op), s)
  | GetLake n => (found (find_lake n s) n, s)
  | CreateZone parent zone_id zone =>
      let n := parent ++ "/zones/" ++ zone_id in
      match find_zone n s with
      | Some _ => (Raise (Conflict ("409 " ++ n)), s)
      | None =>
          (Ok {| operation_name := n |},
           add_zone (name_zone n zone) s)
      end
  | ZoneOperationResult op _ => (found (find_zone (operation_name op) s) (operation_name op), s)
  | GetZone n => (found (find_zone n s) n, s)
  | CreateAsset parent asset_id asset =>
      let n := parent ++ "/assets/" ++ asset_id in
      match find_asset n s with
      | Some _ => (Raise (Conflict ("409 " ++ n)), s)
      | None =>
          (Ok {| operation_name := n |},
           add_asset (name_asset n asset) s)
      end
  | AssetOperationResult op _ => (found (find_asset (operation_name op) s) (operation_name op), s)
  | GetAsset n => (found (find_asset n s) n, s)
  | NewBigQueryClient _ => (Ok tt, s)
  | CreateDataset d =>
      match find_dataset (dataset_reference d) s with
      | Some _ => (Raise (Conflict ("409 " ++ ref_dataset_id (dataset_reference d))), s)
      | None => (Ok d, add_dataset d s)
      end
  | GetDataset r => (found (find_dataset r s) (ref_dataset_id r), s)
  | GetTable r => (found (find_table r s) (table_id r), s)
  | LoadTableFromUri uri r _ =>
      match find_table r s with
      | Some _ => (Ok {| job_destination := r |}, s)
      | None =>
          (Ok {| job_destination := r |},
           add_table {| table_reference := r; table_type := TABLE;
                        table_source_uris := [] |} s)
      end
  | LoadJobResult _ => (Ok tt, s)
  end.

#[global] Instance mock_service : Service cloud := mock_handle.

(** A bucket that already holds the eighteen source objects. *)
Definition with_sources : cloud :=
  {| directories := [];
     objects := map (fun f => (Convert.bucket_name, Convert.source_prefix ++ f))
                    Convert.csv_files;
     lakes := []; zones := []; assets := []; datasets := []; tables := [] |}.

(** A workstation whose [csv_files] directory holds two CSVs and a note. *)
Definition with_local_csvs : cloud :=
  {| directories := [("csv_files", ["data1.csv"; "notes.txt"; "data-2.csv"])];
     objects := []; lakes := []; zones := []; assets := []; datasets := [];
     tables := [] |}.

(** A workstation whose [csv_files] directory holds no CSV. *)
Definition without_csvs : cloud :=
  {| directories := [("csv_files", ["notes.txt"; "data.csv.bak"])];
     objects := []; lakes := []; zones := []; assets := []; datasets := [];
     tables := [] |}.

(** The cloud after one complete run of [automate.py] from
    [with_local_csvs]: lake, zone, asset, dataset and two tables exist. *)
Definition provisioned : cloud :=
  Eval vm_compute in state_of (Automate.main None with_local_csvs).

End Mock.

(** An environment in which the caller lacks permission on Dataplex and
    BigQuery: the local-file, storage and client-construction calls succeed,
    every other request is refused.  The state counts the refusals. *)
Module Faulty.

Record audit : Type := { refused : nat }.

Definition denied {A : Type} (what : string) (s : audit) : outcome A * audit :=
  (Raise (OtherException "PermissionDenied" ("403 " ++ what)),
   {| refused := Datatypes.S (refused s) |}).

Definition faulty_handle (c : call) (s : audit) : outcome (ret_type c) * audit :=
  match c as c0 return outcome (ret_type c0) * audit with
  | PathExists _ => (Ok true, s)
  | ListDir _ => (Ok ["data1.csv"], s)
  | NewStorageClient _ => (Ok tt, s)
  | BlobDownloadToFilename _ _ _ => (Ok tt, s)
  | BlobUploadFromFilename _ _ _ => (Ok tt, s)
  | ReadCsv _ => (Ok {| frame_id := 0 |}, s)
  | TableFromPandas df => (Ok {| arrow_id := frame_id df |}, s)
  | WriteTable _ _ => (Ok tt, s)
  | NewDataplexClient => (Ok tt, s)
  | CreateLake _ _ _ => denied "dataplex.lakes.create" s
  | LakeOperationResult _ _ => denied "dataplex.operations.get" s
  | GetLake _ => denied "dataplex.lakes.get" s
  | CreateZone _ _ _ => denied "dataplex.zones.create" s
  | ZoneOperationResult _ _ => denied "dataplex.operations.get" s
  | GetZone _ => denied "dataplex.zones.get" s
  | CreateAsset _ _ _ => denied "dataplex.assets.create" s
  | AssetOperationResult _ _ => denied "dataplex.operations.get" s
  | GetAsset _ => denied "dataplex.assets.get" s
  | NewBigQueryClient _ => (Ok tt, s)
  | CreateDataset _ => denied "bigquery.datasets.create" s
  | GetDataset _ => denied "bigquery.datasets.get" s
  | GetTable _ => denied "bigquery.tables.get" s
  | LoadTableFromUri _ _ _ => denied "bigquery.jobs.create" s
  | LoadJobResult _ => denied "bigquery.jobs.get" s
  end.

#[global] Instance faulty_service : Service audit := faulty_handle.

End Faulty.

(** An environment that plays a script: each call consumes one reply, which
    either lets the call succeed with a plain value of its type or makes it
    raise; once the script is used up every call succeeds. *)
Module Scripted.

Inductive reply : Type :=
| Succeed
| Fail (e : exn).

(** The value a call returns when it is allowed to succeed. *)
Definition plain_value (c : call) : ret_type c :=
  match c as c0 return ret_type c0 with
  | PathExists _ => true
  | ListDir _ => ["data1.csv"]
  | NewStorageClient _ => tt
  | BlobDownloadToFilename _ _ _ => tt
  | BlobUploadFromFilename _ _ _ => tt
  | ReadCsv _ => {| frame_id := 0 |}
  | TableFromPandas df => {| arrow_id := frame_id df |}
  | WriteTable _ _ => tt
  | NewDataplexClient => tt
  | CreateLake parent lake_id _ => {| operation_name := parent ++ "/lakes/" ++ lake_id |}
  | LakeOperationResult op _ =>
      {| lake_name := operation_name op; lake_display_name := "" |}
  | GetLake n => {| lake_name := n; lake_display_name := "" |}
  | CreateZone parent zone_id _ => {| operation_name := parent ++ "/zones/" ++ zone_id |}
  | ZoneOperationResult op _ =>
      Mock.name_zone (operation_name op) (Automate.zone_message "" "")
  | GetZone n => Mock.name_zone n (Automate.zone_message "" "")
  | CreateAsset parent asset_id _ =>
      {| operation_name := parent ++ "/assets/" ++ asset_id |}
  | AssetOperationResult op _ =>
      Mock.name_asset (operation_name op) (Automate.asset_message "" "" "")
  | GetAsset n => Mock.name_asset n (Automate.asset_message "" "" "")
  | NewBigQueryClient _ => tt
  | CreateDataset d => d
  | GetDataset r => {| dataset_reference := r; dataset_location := None |}
  | GetTable r => {| table_reference := r; table_type := TABLE; table_source_uris := [] |}
  | LoadTableFromUri _ r _ => {| job_destination := r |}
  | LoadJobResult _ => tt
  end.

Definition scripted_handle (c : call) (script : list reply)
    : outcome (ret_type c) * list reply :=
  match script with
  | [] => (Ok (plain_value c), [])
  | Succeed :: rest => (Ok (plain_value c), rest)
  | Fail e :: rest => (Raise e, rest)
  end.

#[global] Instance scripted_service : Service (list reply) := scripted_handle.

End Scripted.

(* ===================================================================== *)
(** ** Reading runs: phases, uploads, the closing message *)
(* ===================================================================== *)

(** The stage of [automate.py] a call belongs to: the local file system,
    object storage, the catalog service, the pause, the warehouse.
    Messages belong to no stage. *)
Definition phase (e : event) : option nat :=
  match e with
  | EvPrint _ => None
  | EvSleep _ => Some 3
  | EvCall c =>
      Some match c with
           | PathExists _ | ListDir _ => 0
           | NewStorageClient _ | BlobDownloadToFilename _ _ _
           | BlobUploadFromFilename _ _ _
           | ReadCsv _ | TableFromPandas _ | WriteTable _ _ => 1
           | NewDataplexClient
           | CreateLake _ _ _ | LakeOperationResult _ _ | GetLake _
           | CreateZone _ _ _ | ZoneOperationResult _ _ | GetZone _
           | CreateAsset _ _ _ | AssetOperationResult _ _ | GetAsset _ => 2
           | NewBigQueryClient _ | CreateDataset _ | GetDataset _ | GetTable _
           | LoadTableFromUri _ _ _ | LoadJobResult _ => 4
           end
  end.

(** From stage [k] on, the stages of the events never go down. *)
Fixpoint phases_ascend (k : nat) (evs : list event) : bool :=
  match evs with
  | [] => true
  | e :: rest =>
      match phase e with
      | None => phases_ascend k rest
      | Some p => Nat.leb k p && phases_ascend p rest
      end
  end.

(** A message, or a call of stage [k]. *)
Definition in_phase (k : nat) (e : event) : bool :=
  match phase e with
  | None => true
  | Some p => Nat.eqb p k
  end.

(** The uploads of a run, in order. *)
Definition upload_requests (evs : list event) : list call :=
  filter (fun c => match c with
                   | BlobUploadFromFilename _ _ _ => true
                   | _ => false
                   end) (requests evs).

(** The message [main] prints once every step is done. *)
Definition completion_message : string :=
  Automate.nl ++ "--- Automation Complete ---".

Definition is_completion_message (e : event) : bool :=
  match e with
  | EvPrint msg => String.eqb msg completion_message
  | _ => false
  end.

(** [m] prints the closing message only in runs that return normally. *)
Definition announces_on_success {S : Type} (m : M S unit) : Prop :=
  forall s, existsb is_completion_message (events_of (m s)) = true ->
            result_of (m s) = Ok tt.

(** The URI [main] records for the uploaded file [f]. *)
Definition uploaded_uri (f : string) : string :=
  "gs://your-csv-source-bucket/csv_data/" ++ f.

(** The table reference [main] uses for the table named [name]. *)
Definition main_table_ref (env : option string) (name : string) : TableReference :=
  {| table_dataset := {| ref_project := Automate.project_id_of env;
                         ref_dataset_id := "raw_csv_data_bq" |};
     table_id := name |}.

(* ===================================================================== *)
(** ** Facts about the string primitives *)
(* ===================================================================== *)

Module PyStrFacts.
Import PyStr.

Lemma append_nil_r (s : string) : s ++ "" = s.
Proof. induction s as [|c s IH]; simpl; [reflexivity | now rewrite IH]. Qed.

Lemma append_assoc (a b c : string) : (a ++ b) ++ c = a ++ b ++ c.
Proof. induction a as [|x a IH]; simpl; [reflexivity | now rewrite IH]. Qed.

Lemma startswith_spec (p s : string) :
  startswith p s = true <-> exists t, s = p ++ t.
Proof.
  revert s; induction p as [|a p IH]; intros s; simpl.
  - split; [intros _; now exists s | reflexivity].
  - destruct s as [|b s]; simpl.
    + split; [discriminate | intros [t Ht]; discriminate].
    + rewrite andb_true_iff, Ascii.eqb_eq, IH. split.
      * intros [-> [t ->]]. now exists t.
      * intros [t Ht]. injection Ht as -> ->. split; [reflexivity | now exists t].
Qed.

Lemma contains_spec (sub s : string) :
  contains sub s = true <-> occurs_in sub s.
Proof.
  unfold occurs_in. induction s as [|c s IH].
  - cbn [contains]. rewrite orb_false_r, startswith_spec. split.
    + intros [t Ht]. exists "", t. exact Ht.
    + intros [a [b Hab]]. destruct a as [|x a]; [|discriminate].
      now exists b.
  - cbn [contains]. rewrite orb_true_iff, startswith_spec, IH. split.
    + intros [[t Ht] | [a [b Hab]]].
      * exists "", t. exact Ht.
      * exists (String c a), b. simpl. now rewrite Hab.
    + intros [a [b Hab]]. destruct a as [|x a].
      * left. now exists b.
      * right. simpl in Hab. injection Hab as _ Hs. now exists a, b.
Qed.

Lemma endswith_spec (s suf : string) :
  endswith s suf = true <-> has_suffix s suf.
Proof.
  unfold has_suffix. induction s as [|c s IH].
  - cbn [endswith]. rewrite orb_false_r, String.eqb_eq. split.
    + intros <-. now exists "".
    + intros [a Ha]. destruct a as [|x a]; [exact Ha | discriminate].
  - cbn [endswith]. rewrite orb_true_iff, String.eqb_eq, IH. split.
    + intros [<- | [a ->]]; [now exists "" | now exists (String c a)].
    + intros [a Ha]. destruct a as [|x a].
      * left. exact Ha.
      * right. simpl in Ha. injection Ha as _ Hs. now exists a.
Qed.

Lemma endswith_false_not_suffix (s suf : string) :
  endswith s suf = false -> ~ has_suffix s suf.
Proof. intros E Hs. apply endswith_spec in Hs. congruence. Qed.

Lemma endswith_false (s suf : string) :
  ~ has_suffix s suf -> endswith s suf = false.
Proof.
  intros Hn. destruct (endswith s suf) eqn:E; [|reflexivity].
  exfalso. apply Hn. now apply endswith_spec.
Qed.

End PyStrFacts.

(* ===================================================================== *)
(** ** Laws of the effect monad *)
(* ===================================================================== *)

Section MonadFacts.
Context {S : Type} `{Service S}.

Lemma bind_ok {A B} (m : M S A) (k : A -> M S B) s v s1 ev1 :
  m s = (Ok v, s1, ev1) -> bind m k s = after ev1 (k v s1).
Proof.
  intros Hm. unfold bind, after, result_of, state_of, events_of.
  rewrite Hm. destruct (k v s1) as [[r s2] ev2]. reflexivity.
Qed.

Lemma bind_raise {A B} (m : M S A) (k : A -> M S B) s e s1 ev1 :
  m s = (Raise e, s1, ev1) -> bind m k s = (Raise e, s1, ev1).
Proof. intros Hm. unfold bind. now rewrite Hm. Qed.

Lemma bind_ok_inv {A B} (m : M S A) (k : A -> M S B) s b s' evs :
  bind m k s = (Ok b, s', evs) ->
  exists a s1 ev1 ev2,
    m s = (Ok a, s1, ev1) /\ k a s1 = (Ok b, s', ev2) /\ evs = (ev1 ++ ev2)%list.
Proof.
  unfold bind. destruct (m s) as [[[a|e] s1] ev1]; [|discriminate].
  destruct (k a s1) as [[r s2] ev2] eqn:Hk. intros Heq.
  injection Heq as -> -> <-. now exists a, s1, ev1, ev2.
Qed.

Lemma invoke_answers (c : call) s r s' :
  answers s c r s' -> invoke c s = (r, s', [EvCall c]).
Proof. unfold answers, invoke. now intros ->. Qed.

Lemma invoke_inv (c : call) s r s' evs :
  invoke c s = (r, s', evs) -> answers s c r s' /\ evs = [EvCall c].
Proof.
  unfold invoke, answers. destruct (handle c s) as [r0 s0].
  intros Heq. injection Heq as -> -> <-. now split.
Qed.

Lemma print_inv (msg : string) (s : S) r s' evs :
  print msg s = (r, s', evs) -> r = Ok tt /\ s' = s /\ evs = [EvPrint msg].
Proof. unfold print. intros Heq. injection Heq as <- <- <-. now repeat split. Qed.



End MonadFacts.

(* ===================================================================== *)
(** ** The conversion script *)
(* ===================================================================== *)

Module ConvertFacts.
Import Convert.

Section AnyService.
Context {S : Type} `{Service S}.

Lemma convert_file_steps (file : string) (s s' : S) evs :
  convert_file file s = (Ok tt, s', evs) ->
  map step_of evs = computed_steps file.
Proof.
  unfold convert_file. intros Hrun.
  apply bind_ok_inv in Hrun. destruct Hrun as (? & s1 & e1 & r1 & H1 & Hrun & ->).
  apply invoke_inv in H1. destruct H1 as [_ ->].
  apply bind_ok_inv in Hrun. destruct Hrun as (df & s2 & e2 & r2 & H2 & Hrun & ->).
  apply invoke_inv in H2. destruct H2 as [_ ->].
  apply bind_ok_inv in Hrun. destruct Hrun as (tb & s3 & e3 & r3 & H3 & Hrun & ->).
  apply invoke_inv in H3. destruct H3 as [_ ->].
  apply bind_ok_inv in Hrun. destruct Hrun as (? & s4 & e4 & r4 & H4 & Hrun & ->).
  apply invoke_inv in H4. destruct H4 as [_ ->].
  apply bind_ok_inv in Hrun. destruct Hrun as (? & s5 & e5 & r5 & H5 & Hrun & ->).
  apply invoke_inv in H5. destruct H5 as [_ ->].
  apply print_inv in Hrun. destruct Hrun as (_ & _ & ->).
  reflexivity.
Qed.



End AnyService.

(** On the eighteen names, [replace] substitutes exactly the extension. *)
Lemma computed_steps_mirrored :
  flat_map computed_steps csv_files = flat_map mirrored_steps csv_files.
Proof. vm_compute. reflexivity. Qed.



End ConvertFacts.

(* ===================================================================== *)
(** ** The provisioning operations, one path at a time *)
(* ===================================================================== *)

(** Expose the environment's answers in a run. *)
Ltac unfold_run :=
  cbv beta iota zeta delta
    [bind try_except invoke print sleep ret raise select_clause after
     result_of state_of events_of fst snd].

(** Use the hypotheses [answers s c r s'] wherever the run asks [c] in [s]. *)
Ltac use_answers :=
  unfold answers in *;
  repeat match goal with
         | Ha : handle ?c ?s = _ |- context [handle ?c ?s] =>
             rewrite Ha; cbv beta iota zeta
         end.

(** Use the class tests known about a raised exception. *)
Ltac use_class_tests :=
  repeat match goal with
         | Ht : ?test ?e = _ |- context [?test ?e] => rewrite Ht; cbv beta iota zeta
         end.

Ltac run_path := unfold_run; use_answers; cbn [is_Conflict is_NotFound is_Exception];
                 use_class_tests; try reflexivity.

Module OperationPaths.
Import Automate.

Section AnyService.
Context {S : Type} `{Service S}.

(** *** Lake *)

Lemma lake_created project region lake_id dn (s s0 s1 s2 : S) op r :
  let parent := "projects/" ++ project ++ "/locations/" ++ region in
  answers s NewDataplexClient (Ok tt) s0 ->
  answers s0 (CreateLake parent lake_id (lake_message dn)) (Ok op) s1 ->
  answers s1 (LakeOperationResult op 300) (Ok r) s2 ->
  create_dataplex_lake project region lake_id dn s
  = (Ok r, s2,
     [EvCall NewDataplexClient;
      EvCall (CreateLake parent lake_id (lake_message dn));
      EvPrint ("Creating lake " ++ lake_id ++ "...");
      EvCall (LakeOperationResult op 300);
      EvPrint ("Lake " ++ lake_name r ++ " created successfully.")]).
Proof. intros parent H0 H1 H2. subst parent. unfold create_dataplex_lake. run_path. Qed.

Lemma lake_reused project region lake_id dn (s s0 s1 : S) m :
  let parent := "projects/" ++ project ++ "/locations/" ++ region in
  answers s NewDataplexClient (Ok tt) s0 ->
  answers s0 (CreateLake parent lake_id (lake_message dn)) (Raise (Conflict m)) s1 ->
  create_dataplex_lake project region lake_id dn s
  = after [EvCall NewDataplexClient;
           EvCall (CreateLake parent lake_id (lake_message dn));
           EvPrint ("Lake " ++ lake_id ++ " already exists.")]
      (invoke (GetLake (parent ++ "/lakes/" ++ lake_id)) s1).
Proof.
  intros parent H0 H1. subst parent. unfold create_dataplex_lake. run_path.
  destruct (handle (GetLake _) s1) as [r s2]. reflexivity.
Qed.

Lemma lake_reused_after_wait project region lake_id dn (s s0 s1 s2 : S) op m :
  let parent := "projects/" ++ project ++ "/locations/" ++ region in
  answers s NewDataplexClient (Ok tt) s0 ->
  answers s0 (CreateLake parent lake_id (lake_message dn)) (Ok op) s1 ->
  answers s1 (LakeOperationResult op 300) (Raise (Conflict m)) s2 ->
  create_dataplex_lake project region lake_id dn s
  = after [EvCall NewDataplexClient;
           EvCall (CreateLake parent lake_id (lake_message dn));
           EvPrint ("Creating lake " ++ lake_id ++ "...");
           EvCall (LakeOperationResult op 300);
           EvPrint ("Lake " ++ lake_id ++ " already exists.")]
      (invoke (GetLake (parent ++ "/lakes/" ++ lake_id)) s2).
Proof.
  intros parent H0 H1 H2. subst parent. unfold create_dataplex_lake. run_path.
  destruct (handle (GetLake _) s2) as [r s3]. reflexivity.
Qed.



(** *** Zone *)

Lemma zone_created project region lake_id zone_id dn (s s0 s1 s2 : S) op r :
  let parent := "projects/" ++ project ++ "/locations/" ++ region ++ "/lakes/" ++ lake_id in
  answers s NewDataplexClient (Ok tt) s0 ->
  answers s0 (CreateZone parent zone_id (zone_message region dn)) (Ok op) s1 ->
  answers s1 (ZoneOperationResult op 300) (Ok r) s2 ->
  create_dataplex_zone project region lake_id zone_id dn s
  = (Ok r, s2,
     [EvCall NewDataplexClient;
      EvCall (CreateZone parent zone_id (zone_message region dn));
      EvPrint ("Creating zone " ++ zone_id ++ "...");
      EvCall (ZoneOperationResult op 300);
      EvPrint ("Zone " ++ zone_name r ++ " created successfully.")]).
Proof. intros parent H0 H1 H2. subst parent. unfold create_dataplex_zone. run_path. Qed.

Lemma zone_reused project region lake_id zone_id dn (s s0 s1 : S) m :
  let parent := "projects/" ++ project ++ "/locations/" ++ region ++ "/lakes/" ++ lake_id in
  answers s NewDataplexClient (Ok tt) s0 ->
  answers s0 (CreateZone parent zone_id (zone_message region dn)) (Raise (Conflict m)) s1 ->
  create_dataplex_zone project region lake_id zone_id dn s
  = after [EvCall NewDataplexClient;
           EvCall (CreateZone parent zone_id (zone_message region dn));
           EvPrint ("Zone " ++ zone_id ++ " already exists.")]
      (invoke (GetZone (parent ++ "/zones/" ++ zone_id)) s1).
Proof.
  intros parent H0 H1. subst parent. unfold create_dataplex_zone. run_path.
  destruct (handle (GetZone _) s1) as [r s2]. reflexivity.
Qed.



(** *** Asset *)

Lemma asset_created project region lake_id zone_id asset_id bucket bq (s s0 s1 s2 : S) op r :
  let parent := "projects/" ++ project ++ "/locations/" ++ region ++ "/lakes/" ++ lake_id
                ++ "/zones/" ++ zone_id in
  answers s NewDataplexClient (Ok tt) s0 ->
  answers s0 (CreateAsset parent asset_id (asset_message project asset_id bucket)) (Ok op) s1 ->
  answers s1 (AssetOperationResult op 300) (Ok r) s2 ->
  create_dataplex_asset project region lake_id zone_id asset_id bucket bq s
  = (Ok r, s2,
     [EvCall NewDataplexClient;
      EvCall (CreateAsset parent asset_id (asset_message project asset_id bucket));
      EvPrint ("Creating asset " ++ asset_id ++ "...");
      EvCall (AssetOperationResult op 300);
      EvPrint ("Asset " ++ asset_name r ++ " created successfully.")]).
Proof. intros parent H0 H1 H2. subst parent. unfold create_dataplex_asset. run_path. Qed.

Lemma asset_reused project region lake_id zone_id asset_id bucket bq (s s0 s1 : S) m :
  let parent := "projects/" ++ project ++ "/locations/" ++ region ++ "/lakes/" ++ lake_id
                ++ "/zones/" ++ zone_id in
  answers s NewDataplexClient (Ok tt) s0 ->
  answers s0 (CreateAsset parent asset_id (asset_message project asset_id bucket)) (Raise (Conflict m)) s1 ->
  create_dataplex_asset project region lake_id zone_id asset_id bucket bq s
  = after [EvCall NewDataplexClient;
           EvCall (CreateAsset parent asset_id (asset_message project asset_id bucket));
           EvPrint ("Asset " ++ asset_id ++ " already exists.")]
      (invoke (GetAsset (parent ++ "/assets/" ++ asset_id)) s1).
Proof.
  intros parent H0 H1. subst parent. unfold create_dataplex_asset. run_path.
  destruct (handle (GetAsset _) s1) as [r s2]. reflexivity.
Qed.



(** *** Dataset *)

Lemma dataset_created project dataset_id region (s s0 s1 : S) created :
  let ref := {| ref_project := project; ref_dataset_id := dataset_id |} in
  let dataset := {| dataset_reference := ref; dataset_location := Some region |} in
  answers s (NewBigQueryClient project) (Ok tt) s0 ->
  answers s0 (CreateDataset dataset) (Ok created) s1 ->
  create_bigquery_dataset project dataset_id region s
  = (Ok created, s1,
     [EvCall (NewBigQueryClient project);
      EvCall (CreateDataset dataset);
      EvPrint ("BigQuery dataset " ++ ref_project (dataset_reference created) ++ "."
               ++ ref_dataset_id (dataset_reference created) ++ " created.")]).
Proof. intros ref dataset H0 H1. subst ref dataset. unfold create_bigquery_dataset. run_path. Qed.

Lemma dataset_reused project dataset_id region (s s0 s1 : S) m :
  let ref := {| ref_project := project; ref_dataset_id := dataset_id |} in
  let dataset := {| dataset_reference := ref; dataset_location := Some region |} in
  answers s (NewBigQueryClient project) (Ok tt) s0 ->
  answers s0 (CreateDataset dataset) (Raise (Conflict m)) s1 ->
  create_bigquery_dataset project dataset_id region s
  = after [EvCall (NewBigQueryClient project);
           EvCall (CreateDataset dataset);
           EvPrint ("BigQuery dataset " ++ project ++ "." ++ dataset_id
                    ++ " already exists.")]
      (invoke (GetDataset ref) s1).
Proof.
  intros ref dataset H0 H1. subst ref dataset. unfold create_bigquery_dataset. run_path.
  destruct (handle (GetDataset _) s1) as [r s2]. reflexivity.
Qed.


(** *** Table *)

Lemma table_skipped project dataset_id table uri skip (s s0 s1 : S) t :
  let ref := {| table_dataset := {| ref_project := project;
                                    ref_dataset_id := dataset_id |};
                table_id := table |} in
  answers s (NewBigQueryClient project) (Ok tt) s0 ->
  answers s0 (GetTable ref) (Ok t) s1 ->
  create_bigquery_external_table_from_csv project dataset_id table uri skip s
  = (Ok None, s1,
     [EvCall (NewBigQueryClient project);
      EvCall (GetTable ref);
      EvPrint ("BigQuery table " ++ table ++ " already exists. Skipping creation.")]).
Proof.
  intros ref H0 H1. subst ref. unfold create_bigquery_external_table_from_csv. run_path.
Qed.

Lemma table_loaded project dataset_id table uri skip (s s0 s1 s2 s3 s4 : S) m job t :
  let ref := {| table_dataset := {| ref_project := project;
                                    ref_dataset_id := dataset_id |};
                table_id := table |} in
  answers s (NewBigQueryClient project) (Ok tt) s0 ->
  answers s0 (GetTable ref) (Raise (NotFound m)) s1 ->
  answers s1 (LoadTableFromUri uri ref (load_job_config skip)) (Ok job) s2 ->
  answers s2 (LoadJobResult job) (Ok tt) s3 ->
  answers s3 (GetTable ref) (Ok t) s4 ->
  create_bigquery_external_table_from_csv project dataset_id table uri skip s
  = (Ok (Some t), s4,
     [EvCall (NewBigQueryClient project);
      EvCall (GetTable ref);
      EvPrint ("Creating BigQuery external table " ++ table ++ " from " ++ uri ++ "...");
      EvCall (LoadTableFromUri uri ref (load_job_config skip));
      EvCall (LoadJobResult job);
      EvPrint ("BigQuery external table " ++ table ++ " created successfully.");
      EvCall (GetTable ref)]).
Proof.
  intros ref H0 H1 H2 H3 H4. subst ref.
  unfold create_bigquery_external_table_from_csv. run_path.
Qed.


End AnyService.
End OperationPaths.

(* ===================================================================== *)
(** ** The shape of the ensure-exists operations *)
(* ===================================================================== *)

(** Case analysis on every answer the environment can give in a run. *)
Ltac explore :=
  repeat match goal with
         | |- context [handle ?c ?s] =>
             let r := fresh "r" in
             let e := fresh "e" in
             let s' := fresh "s" in
             destruct (handle c s) as [[r|e] s']; [|destruct e];
             cbv beta iota zeta delta [is_Conflict is_NotFound is_Exception]
         end.

Module EnsurePattern.
Import Automate OperationPaths.

Section AnyService.
Context {S : Type} `{Service S}.






End AnyService.
End EnsurePattern.

(* ===================================================================== *)
(** ** Claims about the ensure-exists operations *)
(* ===================================================================== *)

Module EnsureClaims.
Import Automate OperationPaths EnsurePattern.




(** C8. The table function has two successful paths with different
    results: when the lookup finds the table it returns nothing; when it
    loads the table it returns the table fetched afterwards.  The lake,
    zone, asset and dataset functions return the fetched existing resource
    on their reuse path. *)
Theorem table_reuse_returns_nothing_others_return_resource {S : Type} `{Service S} :
  (forall project dataset_id table uri skip (s s0 s1 : S) t,
      let ref := {| table_dataset := {| ref_project := project;
                                        ref_dataset_id := dataset_id |};
                    table_id := table |} in
      answers s (NewBigQueryClient project) (Ok tt) s0 ->
      answers s0 (GetTable ref) (Ok t) s1 ->
      result_of (create_bigquery_external_table_from_csv project dataset_id table uri skip s)
      = Ok None)
  /\ (forall project dataset_id table uri skip (s s0 s1 s2 s3 s4 : S) m job t,
      let ref := {| table_dataset := {| ref_project := project;
                                        ref_dataset_id := dataset_id |};
                    table_id := table |} in
      answers s (NewBigQueryClient project) (Ok tt) s0 ->
      answers s0 (GetTable ref) (Raise (NotFound m)) s1 ->
      answers s1 (LoadTableFromUri uri ref (load_job_config skip)) (Ok job) s2 ->
      answers s2 (LoadJobResult job) (Ok tt) s3 ->
      answers s3 (GetTable ref) (Ok t) s4 ->
      result_of (create_bigquery_external_table_from_csv project dataset_id table uri skip s)
      = Ok (Some t))
  /\ (forall project region lake_id dn (s s0 s1 s2 : S) m r,
      let parent := "projects/" ++ project ++ "/locations/" ++ region in
      answers s NewDataplexClient (Ok tt) s0 ->
      answers s0 (CreateLake parent lake_id (lake_message dn)) (Raise (Conflict m)) s1 ->
      answers s1 (GetLake (parent ++ "/lakes/" ++ lake_id)) (Ok r) s2 ->
      result_of (create_dataplex_lake project region lake_id dn s) = Ok r)
  /\ (forall project region lake_id zone_id dn (s s0 s1 s2 : S) m r,
      let parent := "projects/" ++ project ++ "/locations/" ++ region
                    ++ "/lakes/" ++ lake_id in
      answers s NewDataplexClient (Ok tt) s0 ->
      answers s0 (CreateZone parent zone_id (zone_message region dn))
        (Raise (Conflict m)) s1 ->
      answers s1 (GetZone (parent ++ "/zones/" ++ zone_id)) (Ok r) s2 ->
      result_of (create_dataplex_zone project region lake_id zone_id dn s) = Ok r)
  /\ (forall project region lake_id zone_id asset_id bucket bq (s s0 s1 s2 : S) m r,
      let parent := "projects/" ++ project ++ "/locations/" ++ region
                    ++ "/lakes/" ++ lake_id ++ "/zones/" ++ zone_id in
      answers s NewDataplexClient (Ok tt) s0 ->
      answers s0 (CreateAsset parent asset_id (asset_message project asset_id bucket))
        (Raise (Conflict m)) s1 ->
      answers s1 (GetAsset (parent ++ "/assets/" ++ asset_id)) (Ok r) s2 ->
      result_of (create_dataplex_asset project region lake_id zone_id asset_id bucket bq s)
      = Ok r)
  /\ (forall project dataset_id region (s s0 s1 s2 : S) m r,
      let ref := {| ref_project := project; ref_dataset_id := dataset_id |} in
      answers s (NewBigQueryClient project) (Ok tt) s0 ->
      answers s0 (CreateDataset {| dataset_reference := ref;
                                   dataset_location := Some region |})
        (Raise (Conflict m)) s1 ->
      answers s1 (GetDataset ref) (Ok r) s2 ->
      result_of (create_bigquery_dataset project dataset_id region s) = Ok r).
Proof.
  repeat split; intros.
  - erewrite table_skipped by eassumption. reflexivity.
  - erewrite table_loaded by eassumption. reflexivity.
  - erewrite lake_reused by eassumption.
    erewrite invoke_answers by eassumption. reflexivity.
  - erewrite zone_reused by eassumption.
    erewrite invoke_answers by eassumption. reflexivity.
  - erewrite asset_reused by eassumption.
    erewrite invoke_answers by eassumption. reflexivity.
  - erewrite dataset_reused by eassumption.
    erewrite invoke_answers by eassumption. reflexivity.
Qed.

(** The three kinds of path, on the reference environment: a table that
    exists, a table that does not, a dataset that exists. *)
Lemma table_reuse_returns_nothing_others_return_resource_witness :
  let ref := {| table_dataset := {| ref_project := "your-gcp-project-id";
                                    ref_dataset_id := "raw_csv_data_bq" |};
                table_id := "data1" |} in
  result_of (create_bigquery_external_table_from_csv "your-gcp-project-id"
               "raw_csv_data_bq" "data1"
               "gs://your-csv-source-bucket/csv_data/data1.csv" 1 Mock.provisioned)
  = Ok None
  /\ result_of (create_bigquery_external_table_from_csv "your-gcp-project-id"
                  "raw_csv_data_bq" "data1"
                  "gs://your-csv-source-bucket/csv_data/data1.csv" 1 Mock.empty)
     = Ok (Some {| table_reference := ref; table_type := TABLE;
                   table_source_uris := [] |})
  /\ result_of (create_bigquery_dataset "your-gcp-project-id" "raw_csv_data_bq"
                  "us-central1" Mock.provisioned)
     = Ok {| dataset_reference := {| ref_project := "your-gcp-project-id";
                                     ref_dataset_id := "raw_csv_data_bq" |};
             dataset_location := Some "us-central1" |}.
Proof.
  destruct (@table_reuse_returns_nothing_others_return_resource Mock.cloud _)
    as (Hskip & Hload & _ & _ & _ & Hdataset).
  intros ref. split; [|split].
  - exact (Hskip "your-gcp-project-id" "raw_csv_data_bq" "data1"
             "gs://your-csv-source-bucket/csv_data/data1.csv" 1%Z
             Mock.provisioned Mock.provisioned Mock.provisioned _ eq_refl eq_refl).
  - exact (Hload "your-gcp-project-id" "raw_csv_data_bq" "data1"
             "gs://your-csv-source-bucket/csv_data/data1.csv" 1%Z
             Mock.empty Mock.empty Mock.empty
             (Mock.add_table {| table_reference := ref; table_type := TABLE;
                                table_source_uris := [] |} Mock.empty)
             _ _ _ _ _ eq_refl eq_refl eq_refl eq_refl eq_refl).
  - exact (Hdataset "your-gcp-project-id" "raw_csv_data_bq" "us-central1"
             Mock.provisioned Mock.provisioned Mock.provisioned Mock.provisioned
             _ _ eq_refl eq_refl eq_refl).
Defined.

End EnsureClaims.

(* ===================================================================== *)
(** ** Failures *)
(* ===================================================================== *)

Module FailureClaims.
Import Automate OperationPaths.

Section AnyService.
Context {S : Type} `{Service S}.
Variable env : option string.



End AnyService.




End FailureClaims.

(* ===================================================================== *)
(** ** Calling an operation twice *)
(* ===================================================================== *)

Module TwiceClaims.
Import Automate OperationPaths.

Lemma ref_eqb_refl (r : DatasetReference) : Mock.ref_eqb r r = true.
Proof. unfold Mock.ref_eqb. now rewrite !String.eqb_refl. Qed.

Lemma table_ref_eqb_refl (r : TableReference) : Mock.table_ref_eqb r r = true.
Proof. unfold Mock.table_ref_eqb. now rewrite ref_eqb_refl, String.eqb_refl. Qed.

(** Unfold the reference environment's answer to a call. *)
Ltac mock_answer :=
  repeat match goal with x := _ |- _ => subst x end;
  unfold answers, handle, Mock.mock_service, Mock.mock_handle,
    Mock.find_lake, Mock.find_zone, Mock.find_asset, Mock.find_dataset,
    Mock.find_table in *;
  cbn [Mock.lakes Mock.zones Mock.assets Mock.datasets Mock.tables
       Mock.add_lake Mock.add_zone Mock.add_asset Mock.add_dataset Mock.add_table
       find lake_name zone_name asset_name dataset_reference table_reference
       operation_name Mock.name_lake Mock.name_zone Mock.name_asset Mock.found] in *;
  rewrite ?String.eqb_refl, ?ref_eqb_refl, ?table_ref_eqb_refl;
  cbn [Mock.found];
  repeat match goal with
         | Hnone : find ?f ?l = None |- context [find ?f ?l] => rewrite Hnone
         end;
  try reflexivity.

Lemma lake_twice project region lake_id dn (s : Mock.cloud) :
  let parent := "projects/" ++ project ++ "/locations/" ++ region in
  let n := parent ++ "/lakes/" ++ lake_id in
  let lake := Mock.name_lake n (lake_message dn) in
  let first := create_dataplex_lake project region lake_id dn s in
  let second := create_dataplex_lake project region lake_id dn (state_of first) in
  Mock.find_lake n s = None ->
  first = (Ok lake, Mock.add_lake lake s,
           [EvCall NewDataplexClient;
            EvCall (CreateLake parent lake_id (lake_message dn));
            EvPrint ("Creating lake " ++ lake_id ++ "...");
            EvCall (LakeOperationResult {| operation_name := n |} 300);
            EvPrint ("Lake " ++ n ++ " created successfully.")])
  /\ second = (Ok lake, Mock.add_lake lake s,
               [EvCall NewDataplexClient;
                EvCall (CreateLake parent lake_id (lake_message dn));
                EvPrint ("Lake " ++ lake_id ++ " already exists.");
                EvCall (GetLake n)]).
Proof.
  intros parent n lake first second Hnone.
  assert (Hfirst : first = (Ok lake, Mock.add_lake lake s,
           [EvCall NewDataplexClient;
            EvCall (CreateLake parent lake_id (lake_message dn));
            EvPrint ("Creating lake " ++ lake_id ++ "...");
            EvCall (LakeOperationResult {| operation_name := n |} 300);
            EvPrint ("Lake " ++ n ++ " created successfully.")])).
  { subst first.
    apply (lake_created project region lake_id dn s s (Mock.add_lake lake s)
             (Mock.add_lake lake s) {| operation_name := n |} lake); mock_answer. }
  split; [exact Hfirst |].
  subst second. rewrite Hfirst. cbn [state_of fst snd].
  rewrite (lake_reused project region lake_id dn (Mock.add_lake lake s)
             (Mock.add_lake lake s) (Mock.add_lake lake s) ("409 " ++ n));
    [| mock_answer | mock_answer].
  rewrite (invoke_answers (GetLake n) (Mock.add_lake lake s) (Ok lake)
             (Mock.add_lake lake s)); [reflexivity | mock_answer].
Qed.

Lemma zone_twice project region lake_id zone_id dn (s : Mock.cloud) :
  let parent := "projects/" ++ project ++ "/locations/" ++ region ++ "/lakes/" ++ lake_id in
  let n := parent ++ "/zones/" ++ zone_id in
  let zone := Mock.name_zone n (zone_message region dn) in
  let first := create_dataplex_zone project region lake_id zone_id dn s in
  let second := create_dataplex_zone project region lake_id zone_id dn (state_of first) in
  Mock.find_zone n s = None ->
  first = (Ok zone, Mock.add_zone zone s,
           [EvCall NewDataplexClient;
            EvCall (CreateZone parent zone_id (zone_message region dn));
            EvPrint ("Creating zone " ++ zone_id ++ "...");
            EvCall (ZoneOperationResult {| operation_name := n |} 300);
            EvPrint ("Zone " ++ n ++ " created successfully.")])
  /\ second = (Ok zone, Mock.add_zone zone s,
               [EvCall NewDataplexClient;
                EvCall (CreateZone parent zone_id (zone_message region dn));
                EvPrint ("Zone " ++ zone_id ++ " already exists.");
                EvCall (GetZone n)]).
Proof.
  intros parent n zone first second Hnone.
  assert (Hfirst : first = (Ok zone, Mock.add_zone zone s,
           [EvCall NewDataplexClient;
            EvCall (CreateZone parent zone_id (zone_message region dn));
            EvPrint ("Creating zone " ++ zone_id ++ "...");
            EvCall (ZoneOperationResult {| operation_name := n |} 300);
            EvPrint ("Zone " ++ n ++ " created successfully.")])).
  { subst first.
    apply (zone_created project region lake_id zone_id dn s s (Mock.add_zone zone s)
             (Mock.add_zone zone s) {| operation_name := n |} zone); mock_answer. }
  split; [exact Hfirst |].
  subst second. rewrite Hfirst. cbn [state_of fst snd].
  rewrite (zone_reused project region lake_id zone_id dn (Mock.add_zone zone s)
             (Mock.add_zone zone s) (Mock.add_zone zone s) ("409 " ++ n));
    [| mock_answer | mock_answer].
  rewrite (invoke_answers (GetZone n) (Mock.add_zone zone s) (Ok zone)
             (Mock.add_zone zone s)); [reflexivity | mock_answer].
Qed.

Lemma asset_twice project region lake_id zone_id asset_id bucket bq (s : Mock.cloud) :
  let parent := "projects/" ++ project ++ "/locations/" ++ region ++ "/lakes/" ++ lake_id
                ++ "/zones/" ++ zone_id in
  let n := parent ++ "/assets/" ++ asset_id in
  let asset := Mock.name_asset n (asset_message project asset_id bucket) in
  let first := create_dataplex_asset project region lake_id zone_id asset_id bucket bq s in
  let second := create_dataplex_asset project region lake_id zone_id asset_id bucket bq (state_of first) in
  Mock.find_asset n s = None ->
  first = (Ok asset, Mock.add_asset asset s,
           [EvCall NewDataplexClient;
            EvCall (CreateAsset parent asset_id (asset_message project asset_id bucket));
            EvPrint ("Creating asset " ++ asset_id ++ "...");
            EvCall (AssetOperationResult {| operation_name := n |} 300);
            EvPrint ("Asset " ++ n ++ " created successfully.")])
  /\ second = (Ok asset, Mock.add_asset asset s,
               [EvCall NewDataplexClient;
                EvCall (CreateAsset parent asset_id (asset_message project asset_id bucket));
                EvPrint ("Asset " ++ asset_id ++ " already exists.");
                EvCall (GetAsset n)]).
Proof.
  intros parent n asset first second Hnone.
  assert (Hfirst : first = (Ok asset, Mock.add_asset asset s,
           [EvCall NewDataplexClient;
            EvCall (CreateAsset parent asset_id (asset_message project asset_id bucket));
            EvPrint ("Creating asset " ++ asset_id ++ "...");
            EvCall (AssetOperationResult {| operation_name := n |} 300);
            EvPrint ("Asset " ++ n ++ " created successfully.")])).
  { subst first.
    apply (asset_created project region lake_id zone_id asset_id bucket bq s s (Mock.add_asset asset s)
             (Mock.add_asset asset s) {| operation_name := n |} asset); mock_answer. }
  split; [exact Hfirst |].
  subst second. rewrite Hfirst. cbn [state_of fst snd].
  rewrite (asset_reused project region lake_id zone_id asset_id bucket bq (Mock.add_asset asset s)
             (Mock.add_asset asset s) (Mock.add_asset asset s) ("409 " ++ n));
    [| mock_answer | mock_answer].
  rewrite (invoke_answers (GetAsset n) (Mock.add_asset asset s) (Ok asset)
             (Mock.add_asset asset s)); [reflexivity | mock_answer].
Qed.

Lemma dataset_twice project dataset_id region (s : Mock.cloud) :
  let ref := {| ref_project := project; ref_dataset_id := dataset_id |} in
  let dataset := {| dataset_reference := ref; dataset_location := Some region |} in
  let first := create_bigquery_dataset project dataset_id region s in
  let second := create_bigquery_dataset project dataset_id region (state_of first) in
  Mock.find_dataset ref s = None ->
  first = (Ok dataset, Mock.add_dataset dataset s,
           [EvCall (NewBigQueryClient project);
            EvCall (CreateDataset dataset);
            EvPrint ("BigQuery dataset " ++ project ++ "." ++ dataset_id ++ " created.")])
  /\ second = (Ok dataset, Mock.add_dataset dataset s,
               [EvCall (NewBigQueryClient project);
                EvCall (CreateDataset dataset);
                EvPrint ("BigQuery dataset " ++ project ++ "." ++ dataset_id
                         ++ " already exists.");
                EvCall (GetDataset ref)]).
Proof.
  intros ref dataset first second Hnone.
  assert (Hfirst : first = (Ok dataset, Mock.add_dataset dataset s,
           [EvCall (NewBigQueryClient project);
            EvCall (CreateDataset dataset);
            EvPrint ("BigQuery dataset " ++ project ++ "." ++ dataset_id ++ " created.")])).
  { subst first.
    apply (dataset_created project dataset_id region s s (Mock.add_dataset dataset s)
             dataset); mock_answer. }
  split; [exact Hfirst |].
  subst second. rewrite Hfirst. cbn [state_of fst snd].
  rewrite (dataset_reused project dataset_id region (Mock.add_dataset dataset s)
             (Mock.add_dataset dataset s) (Mock.add_dataset dataset s)
             ("409 " ++ dataset_id)); [| mock_answer | mock_answer].
  rewrite (invoke_answers (GetDataset ref) (Mock.add_dataset dataset s) (Ok dataset)
             (Mock.add_dataset dataset s)); [reflexivity | mock_answer].
Qed.

Lemma table_twice project dataset_id table uri skip (s : Mock.cloud) :
  let ref := {| table_dataset := {| ref_project := project;
                                    ref_dataset_id := dataset_id |};
                table_id := table |} in
  let loaded := {| table_reference := ref; table_type := TABLE;
                   table_source_uris := [] |} in
  let first := create_bigquery_external_table_from_csv
                 project dataset_id table uri skip s in
  let second := create_bigquery_external_table_from_csv
                  project dataset_id table uri skip (state_of first) in
  Mock.find_table ref s = None ->
  first = (Ok (Some loaded), Mock.add_table loaded s,
           [EvCall (NewBigQueryClient project);
            EvCall (GetTable ref);
            EvPrint ("Creating BigQuery external table " ++ table ++ " from "
                     ++ uri ++ "...");
            EvCall (LoadTableFromUri uri ref (load_job_config skip));
            EvCall (LoadJobResult {| job_destination := ref |});
            EvPrint ("BigQuery external table " ++ table ++ " created successfully.");
            EvCall (GetTable ref)])
  /\ second = (Ok None, Mock.add_table loaded s,
               [EvCall (NewBigQueryClient project);
                EvCall (GetTable ref);
                EvPrint ("BigQuery table " ++ table
                         ++ " already exists. Skipping creation.")]).
Proof.
  intros ref loaded first second Hnone.
  assert (Hfirst : first = (Ok (Some loaded), Mock.add_table loaded s,
           [EvCall (NewBigQueryClient project);
            EvCall (GetTable ref);
            EvPrint ("Creating BigQuery external table " ++ table ++ " from "
                     ++ uri ++ "...");
            EvCall (LoadTableFromUri uri ref (load_job_config skip));
            EvCall (LoadJobResult {| job_destination := ref |});
            EvPrint ("BigQuery external table " ++ table ++ " created successfully.");
            EvCall (GetTable ref)])).
  { subst first.
    apply (table_loaded project dataset_id table uri skip s s s
             (Mock.add_table loaded s) (Mock.add_table loaded s)
             (Mock.add_table loaded s) ("404 " ++ table)
             {| job_destination := ref |} loaded); mock_answer. }
  split; [exact Hfirst |].
  subst second. rewrite Hfirst. cbn [state_of fst snd].
  apply (table_skipped project dataset_id table uri skip (Mock.add_table loaded s)
           (Mock.add_table loaded s) (Mock.add_table loaded s) loaded); mock_answer.
Qed.

(** C5, as stated, fails for the lake: the second call sends the creation
    request again, so two creation requests are made, not one. *)
Lemma second_lake_call_requests_creation_again :
  let ensure := create_dataplex_lake "your-gcp-project-id" "us-central1"
                  "my-csv-lake" "My CSV Data Lake" in
  let create := CreateLake "projects/your-gcp-project-id/locations/us-central1"
                  "my-csv-lake" (lake_message "My CSV Data Lake") in
  let first := ensure Mock.empty in
  let second := ensure (state_of first) in
  result_of first = result_of second
  /\ creation_requests (events_of first) = [create]
  /\ creation_requests (events_of second) = [create]
  /\ List.length (creation_requests (events_of first ++ events_of second)%list) = 2.
Proof. vm_compute. repeat split. Qed.

(** C5, amended. On the reference environment, when the resource does not
    exist yet, two calls with the same identifier create it once: the
    first call creates it and returns it; the second leaves the
    environment as the first left it.  For the lake, zone, asset and
    dataset the second call sends the creation request again, is answered
    with [Conflict], reports that the resource exists and returns the same
    resource, fetched by name.  For the table the second call sends no
    creation request: its lookup succeeds and it returns nothing. *)
Theorem second_call_creates_nothing :
  (forall project region lake_id dn (s : Mock.cloud),
      let parent := "projects/" ++ project ++ "/locations/" ++ region in
      let n := parent ++ "/lakes/" ++ lake_id in
      let lake := Mock.name_lake n (lake_message dn) in
      let first := create_dataplex_lake project region lake_id dn s in
      let second := create_dataplex_lake project region lake_id dn (state_of first) in
      Mock.find_lake n s = None ->
      first = (Ok lake, Mock.add_lake lake s,
               [EvCall NewDataplexClient;
                EvCall (CreateLake parent lake_id (lake_message dn));
                EvPrint ("Creating lake " ++ lake_id ++ "...");
                EvCall (LakeOperationResult {| operation_name := n |} 300);
                EvPrint ("Lake " ++ n ++ " created successfully.")])
      /\ second = (Ok lake, Mock.add_lake lake s,
                   [EvCall NewDataplexClient;
                    EvCall (CreateLake parent lake_id (lake_message dn));
                    EvPrint ("Lake " ++ lake_id ++ " already exists.");
                    EvCall (GetLake n)]))
  /\ (forall project region lake_id zone_id dn (s : Mock.cloud),
      let parent := "projects/" ++ project ++ "/locations/" ++ region ++ "/lakes/" ++ lake_id in
      let n := parent ++ "/zones/" ++ zone_id in
      let zone := Mock.name_zone n (zone_message region dn) in
      let first := create_dataplex_zone project region lake_id zone_id dn s in
      let second := create_dataplex_zone project region lake_id zone_id dn (state_of first) in
      Mock.find_zone n s = None ->
      first = (Ok zone, Mock.add_zone zone s,
               [EvCall NewDataplexClient;
                EvCall (CreateZone parent zone_id (zone_message region dn));
                EvPrint ("Creating zone " ++ zone_id ++ "...");
                EvCall (ZoneOperationResult {| operation_name := n |} 300);
                EvPrint ("Zone " ++ n ++ " created successfully.")])
      /\ second = (Ok zone, Mock.add_zone zone s,
                   [EvCall NewDataplexClient;
                    EvCall (CreateZone parent zone_id (zone_message region dn));
                    EvPrint ("Zone " ++ zone_id ++ " already exists.");
                    EvCall (GetZone n)]))
  /\ (forall project region lake_id zone_id asset_id bucket bq (s : Mock.cloud),
      let parent := "projects/" ++ project ++ "/locations/" ++ region ++ "/lakes/" ++ lake_id
                    ++ "/zones/" ++ zone_id in
      let n := parent ++ "/assets/" ++ asset_id in
      let asset := Mock.name_asset n (asset_message project asset_id bucket) in
      let first := create_dataplex_asset project region lake_id zone_id asset_id bucket bq s in
      let second := create_dataplex_asset project region lake_id zone_id asset_id bucket bq (state_of first) in
      Mock.find_asset n s = None ->
      first = (Ok asset, Mock.add_asset asset s,
               [EvCall NewDataplexClient;
                EvCall (CreateAsset parent asset_id (asset_message project asset_id bucket));
                EvPrint ("Creating asset " ++ asset_id ++ "...");
                EvCall (AssetOperationResult {| operation_name := n |} 300);
                EvPrint ("Asset " ++ n ++ " created successfully.")])
      /\ second = (Ok asset, Mock.add_asset asset s,
                   [EvCall NewDataplexClient;
                    EvCall (CreateAsset parent asset_id (asset_message project asset_id bucket));
                    EvPrint ("Asset " ++ asset_id ++ " already exists.");
                    EvCall (GetAsset n)]))
  /\ (forall project dataset_id region (s : Mock.cloud),
      let ref := {| ref_project := project; ref_dataset_id := dataset_id |} in
      let dataset := {| dataset_reference := ref; dataset_location := Some region |} in
      let first := create_bigquery_dataset project dataset_id region s in
      let second := create_bigquery_dataset project dataset_id region (state_of first) in
      Mock.find_dataset ref s = None ->
      first = (Ok dataset, Mock.add_dataset dataset s,
               [EvCall (NewBigQueryClient project);
                EvCall (CreateDataset dataset);
                EvPrint ("BigQuery dataset " ++ project ++ "." ++ dataset_id ++ " created.")])
      /\ second = (Ok dataset, Mock.add_dataset dataset s,
                   [EvCall (NewBigQueryClient project);
                    EvCall (CreateDataset dataset);
                    EvPrint ("BigQuery dataset " ++ project ++ "." ++ dataset_id
                             ++ " already exists.");
                    EvCall (GetDataset ref)]))
  /\ (forall project dataset_id table uri skip (s : Mock.cloud),
      let ref := {| table_dataset := {| ref_project := project;
                                        ref_dataset_id := dataset_id |};
                    table_id := table |} in
      let loaded := {| table_reference := ref; table_type := TABLE;
                       table_source_uris := [] |} in
      let first := create_bigquery_external_table_from_csv
                     project dataset_id table uri skip s in
      let second := create_bigquery_external_table_from_csv
                      project dataset_id table uri skip (state_of first) in
      Mock.find_table ref s = None ->
      first = (Ok (Some loaded), Mock.add_table loaded s,
               [EvCall (NewBigQueryClient project);
                EvCall (GetTable ref);
                EvPrint ("Creating BigQuery external table " ++ table ++ " from "
                         ++ uri ++ "...");
                EvCall (LoadTableFromUri uri ref (load_job_config skip));
                EvCall (LoadJobResult {| job_destination := ref |});
                EvPrint ("BigQuery external table " ++ table ++ " created successfully.");
                EvCall (GetTable ref)])
      /\ second = (Ok None, Mock.add_table loaded s,
                   [EvCall (NewBigQueryClient project);
                    EvCall (GetTable ref);
                    EvPrint ("BigQuery table " ++ table
                             ++ " already exists. Skipping creation.")])).
Proof.
  repeat apply conj; intros.
  - now apply lake_twice.
  - now apply zone_twice.
  - now apply asset_twice.
  - now apply dataset_twice.
  - now apply table_twice.
Qed.

(** From the empty cloud: the lake is created once and reused once, the
    table is loaded once and skipped once. *)
Lemma second_call_creates_nothing_witness :
  let lake := create_dataplex_lake "your-gcp-project-id" "us-central1"
                "my-csv-lake" "My CSV Data Lake" in
  let table := create_bigquery_external_table_from_csv "your-gcp-project-id"
                 "raw_csv_data_bq" "data1"
                 "gs://your-csv-source-bucket/csv_data/data1.csv" 1 in
  state_of (lake (state_of (lake Mock.empty))) = state_of (lake Mock.empty)
  /\ result_of (table (state_of (table Mock.empty))) = Ok None.
Proof.
  destruct second_call_creates_nothing as (Hlake & _ & _ & _ & Htable).
  intros lake table. split.
  - destruct (Hlake "your-gcp-project-id" "us-central1" "my-csv-lake"
                "My CSV Data Lake" Mock.empty eq_refl) as [Hfirst Hsecond].
    subst lake. rewrite Hsecond, Hfirst. reflexivity.
  - destruct (Htable "your-gcp-project-id" "raw_csv_data_bq" "data1"
                "gs://your-csv-source-bucket/csv_data/data1.csv" 1%Z
                Mock.empty eq_refl) as [_ Hsecond].
    subst table. rewrite Hsecond. reflexivity.
Defined.

End TwiceClaims.

(* ===================================================================== *)
(** ** What kind of table the table function produces *)
(* ===================================================================== *)

Module TableKindClaims.
Import Automate.

(** Whatever the environment answers, the table function only ever looks
    the table up, submits a load job and waits for it. *)
Lemma table_function_requests {S : Type} `{Service S}
    project dataset_id table uri skip (s : S) (c : call) :
  let ref := {| table_dataset := {| ref_project := project;
                                    ref_dataset_id := dataset_id |};
                table_id := table |} in
  In c (requests (events_of
          (create_bigquery_external_table_from_csv project dataset_id table uri skip s))) ->
  c = GetTable ref
  \/ c = LoadTableFromUri uri ref (load_job_config skip)
  \/ exists job, c = LoadJobResult job.
Proof.
  intros ref. subst ref. unfold create_bigquery_external_table_from_csv. unfold_run.
  explore; cbn [requests is_client_construction app In];
    intros Hin;
    repeat match type of Hin with
           | _ \/ _ => destruct Hin as [Hin | Hin]
           | False => contradiction
           end;
    subst c; eauto.
Qed.

(** C2, evaluated where the table does not exist yet.  The one creation
    request is a load job, configured by a [LoadJobConfig]; on the
    reference environment the table it produces, and the table the
    function returns, is a managed table ([TABLE]), not an external one. *)
Theorem table_function_loads_a_managed_table :
  let ref := {| table_dataset := {| ref_project := "your-gcp-project-id";
                                    ref_dataset_id := "raw_csv_data_bq" |};
                table_id := "data1" |} in
  let uri := "gs://your-csv-source-bucket/csv_data/data1.csv" in
  let run := create_bigquery_external_table_from_csv
               "your-gcp-project-id" "raw_csv_data_bq" "data1" uri 1 Mock.empty in
  creation_requests (events_of run)
  = [LoadTableFromUri uri ref
       {| source_format := CSV; skip_leading_rows := 1; autodetect := true;
          max_bad_records := 0 |}]
  /\ result_of run
     = Ok (Some {| table_reference := ref; table_type := TABLE;
                   table_source_uris := [] |})
  /\ Mock.find_table ref (state_of run)
     = Some {| table_reference := ref; table_type := TABLE; table_source_uris := [] |}.
Proof. vm_compute. repeat split. Qed.

End TableKindClaims.

(* ===================================================================== *)
(** ** The region test of the zone *)
(* ===================================================================== *)

Module LocationClaims.
Import Automate PyStrFacts.

(** C9. The zone message is [MULTI_REGION] exactly when ['us'] or ['eu']
    occurs somewhere in the region string, and [SINGLE_REGION] otherwise;
    ['australia-southeast1'] is therefore [MULTI_REGION]. *)
Theorem zone_location_type_by_substring (region dn : string) :
  (location_type (zone_resource_spec (zone_message region dn)) = MULTI_REGION
   <-> occurs_in "us" region \/ occurs_in "eu" region)
  /\ (location_type (zone_resource_spec (zone_message region dn)) = SINGLE_REGION
      <-> ~ (occurs_in "us" region \/ occurs_in "eu" region))
  /\ location_type (zone_resource_spec (zone_message "australia-southeast1" dn))
     = MULTI_REGION.
Proof.
  cbn [zone_message zone_resource_spec location_type].
  rewrite <- !contains_spec, <- orb_true_iff.
  destruct (PyStr.contains "us" region || PyStr.contains "eu" region)%bool.
  - repeat split; try reflexivity; try discriminate; intros Hn; now elim Hn.
  - repeat split; try reflexivity; try discriminate; intros Hn; discriminate.
Qed.

Lemma zone_location_type_by_substring_witness :
  location_type (zone_resource_spec (zone_message "europe-west1" "Raw CSV Zone"))
  = MULTI_REGION.
Proof.
  apply (proj1 (zone_location_type_by_substring "europe-west1" "Raw CSV Zone")).
  right. exists "", "rope-west1". reflexivity.
Defined.

End LocationClaims.

(* ===================================================================== *)
(** ** The pause before BigQuery *)
(* ===================================================================== *)

Module PauseClaims.
Import Automate.

Lemma waits_app (a b : list event) :
  forallb quiet a = true ->
  bigquery_waits_for_pause (a ++ b)%list = bigquery_waits_for_pause b.
Proof.
  induction a as [|e a IH]; [reflexivity |].
  cbn [forallb app]. rewrite andb_true_iff. intros [He Ha].
  unfold quiet in He. apply andb_true_iff in He. destruct He as [Hbq Hsl].
  destruct e as [msg|n|c]; cbn in Hbq, Hsl; try discriminate;
    cbn [bigquery_waits_for_pause is_bigquery_event];
    rewrite ?Hbq; cbn [negb andb]; now apply IH.
Qed.

Lemma waits_quiet (a : list event) :
  forallb quiet a = true -> bigquery_waits_for_pause a = true.
Proof. intros Ha. rewrite <- (app_nil_r a). now rewrite waits_app. Qed.

Section AnyService.
Context {S : Type} `{Service S}.
Variable env : option string.

Lemma events_bind {A B} (m : M S A) (k : A -> M S B) (s : S) :
  events_of (bind m k s)
  = (events_of (m s)
       ++ match result_of (m s) with
          | Ok v => events_of (k v (state_of (m s)))
          | Raise _ => []
          end)%list.
Proof.
  unfold bind, events_of, result_of, state_of.
  destruct (m s) as [[[v|e] s1] ev1]; cbn [fst snd].
  - destruct (k v s1) as [[r s2] ev2]. reflexivity.
  - now rewrite app_nil_r.
Qed.













End AnyService.



End PauseClaims.

(* ===================================================================== *)
(** ** The discovery configuration of the catalog requests *)
(* ===================================================================== *)

Module DiscoveryClaims.
Import Automate.

(** Read the membership of a call in an explicit list of events. *)
Ltac pick_call Hin c :=
  cbn [In app] in Hin;
  repeat match type of Hin with
         | _ \/ _ => destruct Hin as [Hin | Hin]
         | False => contradiction
         | EvPrint _ = EvCall _ => discriminate Hin
         | EvCall _ = EvCall _ => injection Hin as Hin; subst c
         end.

Section AnyService.
Context {S : Type} `{Service S}.

Lemma lake_creation_call project region lake_id dn (s : S) (c : call) :
  In (EvCall c) (events_of (create_dataplex_lake project region lake_id dn s)) ->
  is_catalog_creation c = true ->
  c = CreateLake ("projects/" ++ project ++ "/locations/" ++ region) lake_id
        {| lake_name := ""; lake_display_name := dn |}.
Proof.
  unfold create_dataplex_lake. unfold_run.
  explore; intros Hin Hc; pick_call Hin c; try discriminate Hc; reflexivity.
Qed.

Lemma zone_creation_call project region lake_id zone_id dn (s : S) (c : call) :
  In (EvCall c) (events_of (create_dataplex_zone project region lake_id zone_id dn s)) ->
  is_catalog_creation c = true ->
  c = CreateZone ("projects/" ++ project ++ "/locations/" ++ region
                  ++ "/lakes/" ++ lake_id) zone_id (zone_message region dn).
Proof.
  unfold create_dataplex_zone. unfold_run.
  explore; intros Hin Hc; pick_call Hin c; try discriminate Hc; reflexivity.
Qed.

Lemma asset_creation_call project region lake_id zone_id asset_id bucket bq
    (s : S) (c : call) :
  In (EvCall c)
     (events_of (create_dataplex_asset project region lake_id zone_id asset_id bucket bq s)) ->
  is_catalog_creation c = true ->
  c = CreateAsset ("projects/" ++ project ++ "/locations/" ++ region
                   ++ "/lakes/" ++ lake_id ++ "/zones/" ++ zone_id) asset_id
        (asset_message project asset_id bucket).
Proof.
  unfold create_dataplex_asset. unfold_run.
  explore; intros Hin Hc; pick_call Hin c; try discriminate Hc; reflexivity.
Qed.

End AnyService.

(** C7, as stated, fails for the lake: its creation request carries a
    display name and no CSV discovery options. *)
Lemma lake_request_has_no_csv_options :
  let create := CreateLake "projects/your-gcp-project-id/locations/us-central1"
                  "my-csv-lake" {| lake_name := ""; lake_display_name := "My CSV Data Lake" |} in
  let fixed := {| header_rows := 1; delimiter := ","; disable_type_inference := false |} in
  In (EvCall create)
     (events_of (create_dataplex_lake "your-gcp-project-id" "us-central1" "my-csv-lake"
                   "My CSV Data Lake" Mock.empty))
  /\ request_csv_options create = None
  /\ ~ carries_csv_options fixed create.
Proof.
  intros create fixed. split; [| split].
  - vm_compute. tauto.
  - reflexivity.
  - intros Hc. specialize (Hc eq_refl). discriminate Hc.
Qed.

(** C7, amended. Every creation request the zone operation sends is the
    zone message of its region and display name, and every creation request
    the asset operation sends is its asset message; both messages have
    discovery enabled with one header row, the comma as delimiter and type
    inference not disabled.  Every creation request the lake operation
    sends carries a lake message made of the display name alone. *)
Theorem zone_and_asset_requests_carry_csv_options {S : Type} `{Service S} :
  let fixed := {| enabled := true;
                  csv_options := {| header_rows := 1; delimiter := ",";
                                    disable_type_inference := false |} |} in
  (forall project region lake_id zone_id dn (s : S) c,
      In (EvCall c) (events_of (create_dataplex_zone project region lake_id zone_id dn s)) ->
      is_catalog_creation c = true ->
      c = CreateZone ("projects/" ++ project ++ "/locations/" ++ region
                      ++ "/lakes/" ++ lake_id) zone_id (zone_message region dn)
      /\ zone_discovery_spec (zone_message region dn) = fixed
      /\ request_csv_options c = Some (csv_options fixed))
  /\ (forall project region lake_id zone_id asset_id bucket bq (s : S) c,
      In (EvCall c)
         (events_of (create_dataplex_asset project region lake_id zone_id asset_id bucket bq s)) ->
      is_catalog_creation c = true ->
      c = CreateAsset ("projects/" ++ project ++ "/locations/" ++ region
                       ++ "/lakes/" ++ lake_id ++ "/zones/" ++ zone_id) asset_id
            (asset_message project asset_id bucket)
      /\ asset_discovery_spec (asset_message project asset_id bucket) = fixed
      /\ request_csv_options c = Some (csv_options fixed))
  /\ (forall project region lake_id dn (s : S) c,
      In (EvCall c) (events_of (create_dataplex_lake project region lake_id dn s)) ->
      is_catalog_creation c = true ->
      c = CreateLake ("projects/" ++ project ++ "/locations/" ++ region) lake_id
            {| lake_name := ""; lake_display_name := dn |}
      /\ request_csv_options c = None).
Proof.
  intros fixed. repeat apply conj; intros * Hin Hc.
  - rewrite (zone_creation_call _ _ _ _ _ _ _ Hin Hc). repeat split.
  - rewrite (asset_creation_call _ _ _ _ _ _ _ _ _ Hin Hc). repeat split.
  - rewrite (lake_creation_call _ _ _ _ _ _ Hin Hc). repeat split.
Qed.

(** The zone request of a first run from the empty cloud. *)
Lemma zone_and_asset_requests_carry_csv_options_witness :
  request_csv_options
    (CreateZone "projects/your-gcp-project-id/locations/us-central1/lakes/my-csv-lake"
       "raw-csv-data" (zone_message "us-central1" "Raw CSV Zone"))
  = Some {| header_rows := 1; delimiter := ","; disable_type_inference := false |}.
Proof.
  destruct (@zone_and_asset_requests_carry_csv_options Mock.cloud _) as (Hzone & _ & _).
  refine (proj2 (proj2 (Hzone "your-gcp-project-id" "us-central1" "my-csv-lake"
                          "raw-csv-data" "Raw CSV Zone" Mock.empty
                          (CreateZone
                             "projects/your-gcp-project-id/locations/us-central1/lakes/my-csv-lake"
                             "raw-csv-data" (zone_message "us-central1" "Raw CSV Zone"))
                          _ eq_refl))).
  vm_compute. tauto.
Defined.

End DiscoveryClaims.

(* ===================================================================== *)
(** ** Nothing to upload *)
(* ===================================================================== *)

Module EarlyReturnClaims.
Import Automate PyStrFacts.

Lemma no_csv_selected (listing : list string) :
  (forall f, In f listing -> ~ has_suffix f ".csv") ->
  filter (fun f => PyStr.endswith f ".csv") listing = [].
Proof.
  induction listing as [|f listing IH]; intros Hnone; [reflexivity |].
  cbn [filter]. rewrite (endswith_false f ".csv") by (apply Hnone; now left).
  apply IH. intros g Hg. apply Hnone. now right.
Qed.

(** C10. If [os.path.exists] says the directory is missing, or the
    directory's listing holds no name ending in ['.csv'], [main] prints
    its banner and one message and returns normally; apart from those two
    queries it calls nothing: no upload, no provisioning request. *)
Theorem main_returns_early_without_csvs {S : Type} `{Service S} (env : option string) :
  (forall (s s1 : S),
      answers s (PathExists "csv_files") (Ok false) s1 ->
      main env s
      = (Ok tt, s1,
         [EvPrint "--- Starting Dataplex and BigQuery Automation for CSVs ---";
          EvCall (PathExists "csv_files");
          EvPrint "Error: Local CSV directory 'csv_files' not found. Please create it and place CSV files inside."]))
  /\ (forall (s s1 s2 : S) listing,
      answers s (PathExists "csv_files") (Ok true) s1 ->
      answers s1 (ListDir "csv_files") (Ok listing) s2 ->
      (forall f, In f listing -> ~ has_suffix f ".csv") ->
      main env s
      = (Ok tt, s2,
         [EvPrint "--- Starting Dataplex and BigQuery Automation for CSVs ---";
          EvCall (PathExists "csv_files");
          EvCall (ListDir "csv_files");
          EvPrint "No CSV files found in 'csv_files'. Please add some CSV files."])).
Proof.
  split.
  - intros s s1 Hexists. unfold main, LOCAL_CSV_DIR. unfold_run. use_answers.
    reflexivity.
  - intros s s1 s2 listing Hexists Hlist Hnone. unfold main, LOCAL_CSV_DIR.
    unfold_run. use_answers.
    cbn [negb]. use_answers. rewrite (no_csv_selected listing Hnone). reflexivity.
Qed.

(** No directory at all, and a directory with a text file and a backup. *)
Lemma main_returns_early_without_csvs_witness :
  result_of (main None Mock.empty) = Ok tt
  /\ state_of (main None Mock.empty) = Mock.empty
  /\ main None Mock.without_csvs
     = (Ok tt, Mock.without_csvs,
        [EvPrint "--- Starting Dataplex and BigQuery Automation for CSVs ---";
         EvCall (PathExists "csv_files");
         EvCall (ListDir "csv_files");
         EvPrint "No CSV files found in 'csv_files'. Please add some CSV files."]).
Proof.
  destruct (@main_returns_early_without_csvs Mock.cloud _ None) as [Hmissing Hnone].
  rewrite (Hmissing Mock.empty Mock.empty eq_refl).
  split; [reflexivity | split; [reflexivity |]].
  apply (Hnone Mock.without_csvs Mock.without_csvs Mock.without_csvs
           ["notes.txt"; "data.csv.bak"] eq_refl eq_refl).
  intros f [<- | [<- | []]]; apply endswith_false_not_suffix; reflexivity.
Defined.

End EarlyReturnClaims.

(* ===================================================================== *)
(** ** How object keys and table names are derived *)
(* ===================================================================== *)

Module NamingFacts.
Import PyStr PyStrFacts.

Lemma not_occurs_contains (sub s : string) :
  ~ occurs_in sub s -> contains sub s = false.
Proof.
  intros Hn. destruct (contains sub s) eqn:E; [| reflexivity].
  exfalso. apply Hn. now apply contains_spec.
Qed.

Lemma contains_char_app (c : ascii) (a b : string) :
  contains (String c "") (a ++ b)
  = (contains (String c "") a || contains (String c "") b)%bool.
Proof.
  induction a as [|x a IH].
  - cbn [append contains startswith]. now rewrite orb_false_r.
  - cbn [append contains startswith]. rewrite IH. now rewrite orb_assoc.
Qed.

Lemma startswith_refl (s : string) : startswith s s = true.
Proof.
  induction s as [|c s IH]; [reflexivity |].
  cbn [startswith]. now rewrite Ascii.eqb_refl, IH.
Qed.

Lemma replace_from_skip_all (old new t : string) :
  replace_from old new (String.length t) t = "".
Proof. induction t as [|c t IH]; [reflexivity | exact IH]. Qed.

(** Where [old] does not occur, [replace] changes nothing. *)
Lemma replace_absent (c : ascii) (rest new s : string) :
  contains (String c rest) s = false ->
  replace (String c rest) new s = s.
Proof.
  unfold replace. induction s as [|x s IH]; [reflexivity |].
  cbn [contains]. intros Hc. apply orb_false_iff in Hc. destruct Hc as [Hstart Hrest].
  cbn [replace_from]. rewrite Hstart. now rewrite (IH Hrest).
Qed.

(** A suffix [old] after a part free of [old]'s first character is the one
    occurrence, and it is replaced. *)
Lemma replace_extension (c : ascii) (rest new stem : string) :
  contains (String c "") stem = false ->
  replace (String c rest) new (stem ++ String c rest) = stem ++ new.
Proof.
  unfold replace. induction stem as [|x stem IH]; intros Hc.
  - cbn [append replace_from]. rewrite startswith_refl.
    cbn [String.length Nat.sub]. rewrite Nat.sub_0_r, replace_from_skip_all.
    now rewrite append_nil_r.
  - cbn [contains startswith] in Hc. apply orb_false_iff in Hc.
    destruct Hc as [Hx Hstem]. rewrite andb_true_r in Hx.
    cbn [append replace_from startswith]. rewrite Hx. cbn [andb].
    now rewrite (IH Hstem).
Qed.

(** After replacing the hyphens no hyphen is left. *)
Lemma replace_hyphen_none_left (s : string) :
  contains "-" (replace "-" "_" s) = false.
Proof.
  unfold replace. induction s as [|x s IH]; [reflexivity |].
  cbn [replace_from startswith String.length Nat.sub].
  destruct (Ascii.eqb "-" x) eqn:Ex; cbn [andb].
  - cbn [append contains startswith]. exact IH.
  - cbn [contains startswith]. rewrite Ex. cbn [andb orb]. exact IH.
Qed.

(** What follows the last slash of [dir/name] is [name]. *)
Lemma basename_of_path (dir name : string) :
  contains "/" name = false ->
  basename (dir ++ "/" ++ name) = name.
Proof.
  intros Hname. induction dir as [|x dir IH].
  - cbn [append basename]. rewrite Hname. reflexivity.
  - cbn [append basename].
    change (dir ++ String "/" name) with (dir ++ "/" ++ name).
    rewrite (contains_char_app "/" dir ("/" ++ name)).
    cbn [append contains startswith]. rewrite Ascii.eqb_refl. cbn [andb orb].
    rewrite orb_true_r. exact IH.
Qed.

Section AnyService.
Context {S : Type} `{Service S}.

(** X1. For a name [stem.csv] whose stem holds no dot, an iteration of the
    conversion loop that completes writes [/tmp/stem.parquet] and uploads it
    to [landing-parquet/stem.parquet]: the substitution touches the extension
    only. *)
Theorem parquet_key_mirrors_any_dotless_stem (stem : string) (s s' : S) (evs : list event) :
  ~ occurs_in "." stem ->
  Convert.convert_file (stem ++ ".csv") s = (Ok tt, s', evs) ->
  map Convert.step_of evs
  = [ Convert.Download ("synthea/" ++ stem ++ ".csv") ("/tmp/" ++ stem ++ ".csv");
      Convert.Parse ("/tmp/" ++ stem ++ ".csv");
      Convert.ToArrow;
      Convert.WriteParquet ("/tmp/" ++ stem ++ ".parquet");
      Convert.Upload ("landing-parquet/" ++ stem ++ ".parquet")
                     ("/tmp/" ++ stem ++ ".parquet");
      Convert.Report ("Uploaded " ++ (stem ++ ".csv") ++ " as Parquet.") ].
Proof.
  intros Hdot Hrun. apply not_occurs_contains in Hdot.
  rewrite (ConvertFacts.convert_file_steps _ _ _ _ Hrun).
  unfold Convert.computed_steps, Convert.source_prefix, Convert.target_prefix.
  rewrite (replace_extension "." "csv" ".parquet" stem Hdot).
  change ("/tmp/" ++ stem ++ ".csv") with (("/tmp/" ++ stem) ++ ".csv").
  rewrite (replace_extension "." "csv" ".parquet" ("/tmp/" ++ stem))
    by (rewrite contains_char_app, Hdot; reflexivity).
  reflexivity.
Qed.

End AnyService.

Lemma parquet_key_mirrors_any_dotless_stem_witness :
  map Convert.step_of (events_of (Convert.convert_file "patients.csv" Mock.with_sources))
  = [ Convert.Download "synthea/patients.csv" "/tmp/patients.csv";
      Convert.Parse "/tmp/patients.csv";
      Convert.ToArrow;
      Convert.WriteParquet "/tmp/patients.parquet";
      Convert.Upload "landing-parquet/patients.parquet" "/tmp/patients.parquet";
      Convert.Report "Uploaded patients.csv as Parquet." ].
Proof.
  refine (parquet_key_mirrors_any_dotless_stem "patients" Mock.with_sources
            (state_of (Convert.convert_file "patients.csv" Mock.with_sources))
            (events_of (Convert.convert_file "patients.csv" Mock.with_sources)) _ _).
  - intros Hocc. apply contains_spec in Hocc. vm_compute in Hocc. discriminate Hocc.
  - vm_compute. reflexivity.
Defined.

(** X2. For an uploaded file [stem.csv] whose stem holds neither dot nor
    slash, the loop of step 7 asks for the table named by the stem with
    every hyphen turned into an underscore.  That name holds no hyphen, and
    turning hyphens into underscores again leaves it as it is (so the stems
    [a-b] and [a_b] name the same table); a stem without hyphen is kept. *)
Theorem table_name_of_uploaded_csv
    {S : Type} `{Service S} (env : option string) (stem : string) (s : S) :
  ~ occurs_in "." stem ->
  ~ occurs_in "/" stem ->
  Automate.table_step env (uploaded_uri (stem ++ ".csv")) s
  = bind (Automate.create_bigquery_external_table_from_csv (Automate.PROJECT_ID env)
            "raw_csv_data_bq" (replace "-" "_" stem) (uploaded_uri (stem ++ ".csv")) 1)
         (fun _ => ret tt) s
  /\ ~ occurs_in "-" (replace "-" "_" stem)
  /\ replace "-" "_" (replace "-" "_" stem) = replace "-" "_" stem
  /\ (~ occurs_in "-" stem -> replace "-" "_" stem = stem).
Proof.
  intros Hdot Hslash.
  apply not_occurs_contains in Hdot. apply not_occurs_contains in Hslash.
  assert (Hbase : basename (uploaded_uri (stem ++ ".csv")) = stem ++ ".csv").
  { apply (basename_of_path "gs://your-csv-source-bucket/csv_data" (stem ++ ".csv")).
    rewrite contains_char_app, Hslash. reflexivity. }
  repeat split.
  - unfold Automate.table_step. rewrite Hbase.
    rewrite (replace_extension "." "csv" "" stem Hdot), append_nil_r. reflexivity.
  - intros Hocc. apply contains_spec in Hocc.
    rewrite replace_hyphen_none_left in Hocc. discriminate Hocc.
  - apply replace_absent, replace_hyphen_none_left.
  - intros Hnone. apply replace_absent. now apply not_occurs_contains.
Qed.

Lemma table_name_of_uploaded_csv_witness :
  Automate.table_step None "gs://your-csv-source-bucket/csv_data/data-2.csv" Mock.empty
  = bind (Automate.create_bigquery_external_table_from_csv "your-gcp-project-id"
            "raw_csv_data_bq" "data_2"
            "gs://your-csv-source-bucket/csv_data/data-2.csv" 1)
         (fun _ => ret tt) Mock.empty.
Proof.
  refine (proj1 (table_name_of_uploaded_csv None "data-2" Mock.empty _ _));
    intros Hocc; apply contains_spec in Hocc; vm_compute in Hocc; discriminate Hocc.
Defined.

End NamingFacts.

(* ===================================================================== *)
(** ** The upload step of [main] *)
(* ===================================================================== *)

Module UploadFacts.
Import Automate PyStrFacts.

Lemma requests_app (a b : list event) :
  requests (a ++ b)%list = (requests a ++ requests b)%list.
Proof.
  induction a as [|e a IH]; [reflexivity |].
  destruct e as [msg|n|c]; cbn [app requests]; try exact IH.
  destruct (is_client_construction c); cbn [app]; now rewrite IH.
Qed.

Lemma upload_requests_app (a b : list event) :
  upload_requests (a ++ b)%list = (upload_requests a ++ upload_requests b)%list.
Proof. unfold upload_requests. now rewrite requests_app, filter_app. Qed.

Section AnyService.
Context {S : Type} `{Service S}.
Variable env : option string.

Lemma upload_ok_inv local bucket blob (s s' : S) evs :
  upload_csv_to_gcs env local bucket blob s = (Ok tt, s', evs) ->
  evs = [EvCall (NewStorageClient (Some (PROJECT_ID env)));
         EvCall (BlobUploadFromFilename bucket blob local);
         EvPrint ("Uploaded " ++ local ++ " to gs://" ++ bucket ++ "/" ++ blob)].
Proof.
  unfold upload_csv_to_gcs. unfold_run.
  explore; intros Heq; try discriminate Heq; now injection Heq as _ <-.
Qed.

Lemma upload_failed local bucket blob (s s0 s1 : S) e :
  answers s (NewStorageClient (Some (PROJECT_ID env))) (Ok tt) s0 ->
  answers s0 (BlobUploadFromFilename bucket blob local) (Raise e) s1 ->
  is_Exception e = true ->
  upload_csv_to_gcs env local bucket blob s
  = (Raise e, s1,
     [EvCall (NewStorageClient (Some (PROJECT_ID env)));
      EvCall (BlobUploadFromFilename bucket blob local);
      EvPrint ("Error uploading " ++ local ++ ": " ++ exn_str e)]).
Proof. intros H0 H1 He. unfold upload_csv_to_gcs. run_path. Qed.

Lemma upload_in_storage_phase local bucket blob (s : S) :
  forallb (in_phase 1) (events_of (upload_csv_to_gcs env local bucket blob s)) = true.
Proof. unfold upload_csv_to_gcs. unfold_run. explore; reflexivity. Qed.

Lemma in_phase_bind {A B} k (m : M S A) (f : A -> M S B) (s : S) :
  forallb (in_phase k) (events_of (m s)) = true ->
  (forall v s1, forallb (in_phase k) (events_of (f v s1)) = true) ->
  forallb (in_phase k) (events_of (bind m f s)) = true.
Proof.
  intros Hm Hf. rewrite PauseClaims.events_bind, forallb_app, Hm.
  destruct (result_of (m s)); [apply Hf | reflexivity].
Qed.

Lemma upload_all_in_storage_phase files uris (s : S) :
  forallb (in_phase 1) (events_of (upload_all env files uris s)) = true.
Proof.
  revert uris s. induction files as [|f files IH]; intros uris s; [reflexivity |].
  cbn [upload_all]. apply in_phase_bind; [apply upload_in_storage_phase | intros; apply IH].
Qed.

Lemma upload_all_result
    (files uris result : list string) (s s' : S) (evs : list event) :
  upload_all env files uris s = (Ok result, s', evs) ->
  result = (uris ++ map uploaded_uri files)%list.
Proof.
  revert uris s evs. induction files as [|f files IH]; intros uris s evs Hrun.
  - cbn in Hrun. injection Hrun as <- _ _. now rewrite app_nil_r.
  - cbn [upload_all] in Hrun. apply bind_ok_inv in Hrun.
    destruct Hrun as ([] & s1 & ev1 & ev2 & _ & Hrest & _).
    rewrite (IH _ _ _ Hrest), <- app_assoc. reflexivity.
Qed.

(** X3. When the upload loop completes, it has uploaded every file of its
    list, in order, from [csv_files/<name>] (as [os.path.join] builds it) to
    the object [csv_data/<name>] of the bucket, and it returns the URIs it
    was given followed by one [gs://] URI per file, in the same order. *)
Theorem upload_loop_uploads_each_file_in_order
    (files uris result : list string) (s s' : S) (evs : list event) :
  upload_all env files uris s = (Ok result, s', evs) ->
  result = (uris ++ map uploaded_uri files)%list
  /\ upload_requests evs
     = map (fun f => BlobUploadFromFilename "your-csv-source-bucket" ("csv_data/" ++ f)
                       (PyStr.join "csv_files" f)) files.
Proof.
  intros Hrun. split; [exact (upload_all_result _ _ _ _ _ _ Hrun) |].
  revert uris s evs result Hrun.
  induction files as [|f files IH]; intros uris s evs result Hrun.
  - cbn in Hrun. now injection Hrun as _ _ <-.
  - cbn [upload_all] in Hrun. apply bind_ok_inv in Hrun.
    destruct Hrun as ([] & s1 & ev1 & ev2 & Hup & Hrest & ->).
    apply upload_ok_inv in Hup. subst ev1.
    rewrite upload_requests_app, (IH _ _ _ _ Hrest). reflexivity.
Qed.

(** X4. With a directory that exists and a listing that holds at least one
    name ending in ['.csv'], once the uploads are done [main] goes on to
    step 3 with one URI per selected name, in listing order; the selected
    names are exactly the names of the listing that end in ['.csv']. *)
Theorem main_provisions_for_the_csv_names
    (listing uris : list string) (s s1 s2 s3 : S) (evs : list event) :
  answers s (PathExists "csv_files") (Ok true) s1 ->
  answers s1 (ListDir "csv_files") (Ok listing) s2 ->
  filter (fun f => PyStr.endswith f ".csv") listing <> [] ->
  upload_all env (filter (fun f => PyStr.endswith f ".csv") listing) [] s2
  = (Ok uris, s3, evs) ->
  main env s
  = after ([EvPrint "--- Starting Dataplex and BigQuery Automation for CSVs ---";
            EvCall (PathExists "csv_files"); EvCall (ListDir "csv_files")] ++ evs)%list
      (main_step3 env uris s3)
  /\ uris = map uploaded_uri (filter (fun f => PyStr.endswith f ".csv") listing)
  /\ forall f, In f (filter (fun f => PyStr.endswith f ".csv") listing)
               <-> In f listing /\ has_suffix f ".csv".
Proof.
  intros Hexists Hlist Hsome Hup. split; [| split].
  - unfold main, LOCAL_CSV_DIR.
    rewrite (bind_ok _ _ s tt s _ eq_refl).
    rewrite (bind_ok _ _ _ _ _ _ (invoke_answers _ _ _ _ Hexists)). cbn [negb].
    rewrite (bind_ok _ _ _ _ _ _ (invoke_answers _ _ _ _ Hlist)).
    destruct (filter (fun f => PyStr.endswith f ".csv") listing) as [|f files] eqn:Hsel;
      [now elim Hsome |].
    rewrite (bind_ok _ _ _ _ _ _ Hup).
    unfold after, result_of, state_of, events_of. cbn [fst snd app]. reflexivity.
  - exact (upload_all_result _ _ _ _ _ _ Hup).
  - intros f. rewrite filter_In, endswith_spec. reflexivity.
Qed.

(** X5. An [Exception] raised by the upload of a file is reported as
    ["Error uploading <path>: <e>"] and raised again.  When the upload loop
    raises, [main] raises the same exception at once: it has made storage
    calls only, no request to the catalog service or the warehouse. *)
Theorem upload_failure_is_logged_and_stops_main
    (listing : list string) (s s1 s2 s3 : S) (e : exn) (evs : list event) :
  answers s (PathExists "csv_files") (Ok true) s1 ->
  answers s1 (ListDir "csv_files") (Ok listing) s2 ->
  upload_all env (filter (fun f => PyStr.endswith f ".csv") listing) [] s2
  = (Raise e, s3, evs) ->
  main env s
  = (Raise e, s3,
     ([EvPrint "--- Starting Dataplex and BigQuery Automation for CSVs ---";
       EvCall (PathExists "csv_files"); EvCall (ListDir "csv_files")] ++ evs)%list)
  /\ forallb (in_phase 1) evs = true
  /\ forall local bucket blob (t t0 t1 : S) e',
       answers t (NewStorageClient (Some (PROJECT_ID env))) (Ok tt) t0 ->
       answers t0 (BlobUploadFromFilename bucket blob local) (Raise e') t1 ->
       is_Exception e' = true ->
       upload_csv_to_gcs env local bucket blob t
       = (Raise e', t1,
          [EvCall (NewStorageClient (Some (PROJECT_ID env)));
           EvCall (BlobUploadFromFilename bucket blob local);
           EvPrint ("Error uploading " ++ local ++ ": " ++ exn_str e')]).
Proof.
  intros Hexists Hlist Hup. split; [| split].
  - unfold main, LOCAL_CSV_DIR.
    rewrite (bind_ok _ _ s tt s _ eq_refl).
    rewrite (bind_ok _ _ _ _ _ _ (invoke_answers _ _ _ _ Hexists)). cbn [negb].
    rewrite (bind_ok _ _ _ _ _ _ (invoke_answers _ _ _ _ Hlist)).
    destruct (filter (fun f => PyStr.endswith f ".csv") listing) as [|f files] eqn:Hsel;
      [discriminate Hup |].
    rewrite (bind_raise _ _ _ _ _ _ Hup). reflexivity.
  - pose proof (upload_all_in_storage_phase
                  (filter (fun f => PyStr.endswith f ".csv") listing) [] s2) as Hq.
    now rewrite Hup in Hq.
  - intros. eapply upload_failed; eassumption.
Qed.

End AnyService.

Lemma upload_loop_uploads_each_file_in_order_witness :
  upload_requests
    (events_of (upload_all None ["data1.csv"; "data-2.csv"] [] Mock.with_local_csvs))
  = [BlobUploadFromFilename "your-csv-source-bucket" "csv_data/data1.csv"
       "csv_files/data1.csv";
     BlobUploadFromFilename "your-csv-source-bucket" "csv_data/data-2.csv"
       "csv_files/data-2.csv"].
Proof.
  let r := eval vm_compute in
             (upload_all None ["data1.csv"; "data-2.csv"] [] Mock.with_local_csvs) in
  assert (Hrun : upload_all None ["data1.csv"; "data-2.csv"] [] Mock.with_local_csvs = r)
    by (vm_compute; reflexivity).
  rewrite Hrun.
  exact (proj2 (upload_loop_uploads_each_file_in_order None _ _ _ _ _ _ Hrun)).
Defined.

Lemma main_provisions_for_the_csv_names_witness :
  result_of (main None Mock.with_local_csvs) = Ok tt.
Proof.
  let r := eval vm_compute in
             (upload_all None
                (filter (fun f => PyStr.endswith f ".csv")
                   ["data1.csv"; "notes.txt"; "data-2.csv"]) [] Mock.with_local_csvs) in
  assert (Hup : upload_all None
                  (filter (fun f => PyStr.endswith f ".csv")
                     ["data1.csv"; "notes.txt"; "data-2.csv"]) [] Mock.with_local_csvs = r)
    by (vm_compute; reflexivity).
  assert (Hsome : filter (fun f => PyStr.endswith f ".csv")
                    ["data1.csv"; "notes.txt"; "data-2.csv"] <> [])
    by (vm_compute; discriminate).
  destruct (main_provisions_for_the_csv_names None
              ["data1.csv"; "notes.txt"; "data-2.csv"] _
              Mock.with_local_csvs Mock.with_local_csvs Mock.with_local_csvs _ _
              eq_refl eq_refl Hsome Hup) as [Hmain _].
  rewrite Hmain. vm_compute. reflexivity.
Defined.

(** The first upload is refused. *)
Lemma upload_failure_is_logged_and_stops_main_witness :
  main None [Scripted.Succeed; Scripted.Succeed; Scripted.Succeed;
             Scripted.Fail (OtherException "Forbidden" "403 storage.objects.create")]
  = (Raise (OtherException "Forbidden" "403 storage.objects.create"), [],
     [EvPrint "--- Starting Dataplex and BigQuery Automation for CSVs ---";
      EvCall (PathExists "csv_files"); EvCall (ListDir "csv_files");
      EvCall (NewStorageClient (Some "your-gcp-project-id"));
      EvCall (BlobUploadFromFilename "your-csv-source-bucket" "csv_data/data1.csv"
                "csv_files/data1.csv");
      EvPrint "Error uploading csv_files/data1.csv: 403 storage.objects.create"]).
Proof.
  refine (proj1 (upload_failure_is_logged_and_stops_main None ["data1.csv"]
                   [Scripted.Succeed; Scripted.Succeed; Scripted.Succeed;
                    Scripted.Fail (OtherException "Forbidden" "403 storage.objects.create")]
                   [Scripted.Succeed; Scripted.Succeed;
                    Scripted.Fail (OtherException "Forbidden" "403 storage.objects.create")]
                   [Scripted.Succeed;
                    Scripted.Fail (OtherException "Forbidden" "403 storage.objects.create")]
                   []
                   (OtherException "Forbidden" "403 storage.objects.create")
                   [EvCall (NewStorageClient (Some "your-gcp-project-id"));
                    EvCall (BlobUploadFromFilename "your-csv-source-bucket"
                              "csv_data/data1.csv" "csv_files/data1.csv");
                    EvPrint "Error uploading csv_files/data1.csv: 403 storage.objects.create"]
                   eq_refl eq_refl _)).
  vm_compute. reflexivity.
Defined.

End UploadFacts.

(* ===================================================================== *)
(** ** Edge paths of the provisioning operations *)
(* ===================================================================== *)

Module EdgePaths.
Import Automate OperationPaths.

Section AnyService.
Context {S : Type} `{Service S}.

Lemma zone_reused_after_wait project region lake_id zone_id dn (s s0 s1 s2 : S) op m :
  let parent := "projects/" ++ project ++ "/locations/" ++ region
                ++ "/lakes/" ++ lake_id in
  answers s NewDataplexClient (Ok tt) s0 ->
  answers s0 (CreateZone parent zone_id (zone_message region dn)) (Ok op) s1 ->
  answers s1 (ZoneOperationResult op 300) (Raise (Conflict m)) s2 ->
  create_dataplex_zone project region lake_id zone_id dn s
  = after [EvCall NewDataplexClient;
           EvCall (CreateZone parent zone_id (zone_message region dn));
           EvPrint ("Creating zone " ++ zone_id ++ "...");
           EvCall (ZoneOperationResult op 300);
           EvPrint ("Zone " ++ zone_id ++ " already exists.")]
      (invoke (GetZone (parent ++ "/zones/" ++ zone_id)) s2).
Proof.
  intros parent H0 H1 H2. subst parent. unfold create_dataplex_zone. run_path.
  destruct (handle (GetZone _) s2) as [r s3]. reflexivity.
Qed.

Lemma asset_reused_after_wait project region lake_id zone_id asset_id bucket bq
    (s s0 s1 s2 : S) op m :
  let parent := "projects/" ++ project ++ "/locations/" ++ region
                ++ "/lakes/" ++ lake_id ++ "/zones/" ++ zone_id in
  answers s NewDataplexClient (Ok tt) s0 ->
  answers s0 (CreateAsset parent asset_id (asset_message project asset_id bucket))
    (Ok op) s1 ->
  answers s1 (AssetOperationResult op 300) (Raise (Conflict m)) s2 ->
  create_dataplex_asset project region lake_id zone_id asset_id bucket bq s
  = after [EvCall NewDataplexClient;
           EvCall (CreateAsset parent asset_id (asset_message project asset_id bucket));
           EvPrint ("Creating asset " ++ asset_id ++ "...");
           EvCall (AssetOperationResult op 300);
           EvPrint ("Asset " ++ asset_id ++ " already exists.")]
      (invoke (GetAsset (parent ++ "/assets/" ++ asset_id)) s2).
Proof.
  intros parent H0 H1 H2. subst parent. unfold create_dataplex_asset. run_path.
  destruct (handle (GetAsset _) s2) as [r s3]. reflexivity.
Qed.

End AnyService.

(** X6. An exception raised inside an [except] clause leaves the operation
    as it is, without the operation's ["Error creating ..."] line: for the
    table, a failure of the load request or of the wait on the load job; for
    the lake, zone, asset and dataset, a failure of the fetch that follows a
    [Conflict].  This holds for an exception of any class. *)
Theorem failure_inside_handler_is_not_reported {S : Type} `{Service S} :
  (forall project dataset_id table uri skip (s s0 s1 s2 : S) m e,
      let ref := {| table_dataset := {| ref_project := project;
                                        ref_dataset_id := dataset_id |};
                    table_id := table |} in
      answers s (NewBigQueryClient project) (Ok tt) s0 ->
      answers s0 (GetTable ref) (Raise (NotFound m)) s1 ->
      answers s1 (LoadTableFromUri uri ref (load_job_config skip)) (Raise e) s2 ->
      create_bigquery_external_table_from_csv project dataset_id table uri skip s
      = (Raise e, s2,
         [EvCall (NewBigQueryClient project);
          EvCall (GetTable ref);
          EvPrint ("Creating BigQuery external table " ++ table ++ " from " ++ uri ++ "...");
          EvCall (LoadTableFromUri uri ref (load_job_config skip))]))
  /\ (forall project dataset_id table uri skip (s s0 s1 s2 s3 : S) m job e,
      let ref := {| table_dataset := {| ref_project := project;
                                        ref_dataset_id := dataset_id |};
                    table_id := table |} in
      answers s (NewBigQueryClient project) (Ok tt) s0 ->
      answers s0 (GetTable ref) (Raise (NotFound m)) s1 ->
      answers s1 (LoadTableFromUri uri ref (load_job_config skip)) (Ok job) s2 ->
      answers s2 (LoadJobResult job) (Raise e) s3 ->
      create_bigquery_external_table_from_csv project dataset_id table uri skip s
      = (Raise e, s3,
         [EvCall (NewBigQueryClient project);
          EvCall (GetTable ref);
          EvPrint ("Creating BigQuery external table " ++ table ++ " from " ++ uri ++ "...");
          EvCall (LoadTableFromUri uri ref (load_job_config skip));
          EvCall (LoadJobResult job)]))
  /\ (forall project region lake_id dn (s s0 s1 s2 : S) m e,
      let parent := "projects/" ++ project ++ "/locations/" ++ region in
      answers s NewDataplexClient (Ok tt) s0 ->
      answers s0 (CreateLake parent lake_id (lake_message dn)) (Raise (Conflict m)) s1 ->
      answers s1 (GetLake (parent ++ "/lakes/" ++ lake_id)) (Raise e) s2 ->
      create_dataplex_lake project region lake_id dn s
      = (Raise e, s2,
         [EvCall NewDataplexClient;
          EvCall (CreateLake parent lake_id (lake_message dn));
          EvPrint ("Lake " ++ lake_id ++ " already exists.");
          EvCall (GetLake (parent ++ "/lakes/" ++ lake_id))]))
  /\ (forall project region lake_id zone_id dn (s s0 s1 s2 : S) m e,
      let parent := "projects/" ++ project ++ "/locations/" ++ region
                    ++ "/lakes/" ++ lake_id in
      answers s NewDataplexClient (Ok tt) s0 ->
      answers s0 (CreateZone parent zone_id (zone_message region dn))
        (Raise (Conflict m)) s1 ->
      answers s1 (GetZone (parent ++ "/zones/" ++ zone_id)) (Raise e) s2 ->
      create_dataplex_zone project region lake_id zone_id dn s
      = (Raise e, s2,
         [EvCall NewDataplexClient;
          EvCall (CreateZone parent zone_id (zone_message region dn));
          EvPrint ("Zone " ++ zone_id ++ " already exists.");
          EvCall (GetZone (parent ++ "/zones/" ++ zone_id))]))
  /\ (forall project region lake_id zone_id asset_id bucket bq (s s0 s1 s2 : S) m e,
      let parent := "projects/" ++ project ++ "/locations/" ++ region
                    ++ "/lakes/" ++ lake_id ++ "/zones/" ++ zone_id in
      answers s NewDataplexClient (Ok tt) s0 ->
      answers s0 (CreateAsset parent asset_id (asset_message project asset_id bucket))
        (Raise (Conflict m)) s1 ->
      answers s1 (GetAsset (parent ++ "/assets/" ++ asset_id)) (Raise e) s2 ->
      create_dataplex_asset project region lake_id zone_id asset_id bucket bq s
      = (Raise e, s2,
         [EvCall NewDataplexClient;
          EvCall (CreateAsset parent asset_id (asset_message project asset_id bucket));
          EvPrint ("Asset " ++ asset_id ++ " already exists.");
          EvCall (GetAsset (parent ++ "/assets/" ++ asset_id))]))
  /\ (forall project dataset_id region (s s0 s1 s2 : S) m e,
      let ref := {| ref_project := project; ref_dataset_id := dataset_id |} in
      let dataset := {| dataset_reference := ref; dataset_location := Some region |} in
      answers s (NewBigQueryClient project) (Ok tt) s0 ->
      answers s0 (CreateDataset dataset) (Raise (Conflict m)) s1 ->
      answers s1 (GetDataset ref) (Raise e) s2 ->
      create_bigquery_dataset project dataset_id region s
      = (Raise e, s2,
         [EvCall (NewBigQueryClient project);
          EvCall (CreateDataset dataset);
          EvPrint ("BigQuery dataset " ++ project ++ "." ++ dataset_id
                   ++ " already exists.");
          EvCall (GetDataset ref)])).
Proof.
  repeat apply conj; intros.
  - subst ref. unfold create_bigquery_external_table_from_csv. run_path.
  - subst ref. unfold create_bigquery_external_table_from_csv. run_path.
  - erewrite lake_reused by eassumption.
    erewrite invoke_answers by eassumption. reflexivity.
  - erewrite zone_reused by eassumption.
    erewrite invoke_answers by eassumption. reflexivity.
  - erewrite asset_reused by eassumption.
    erewrite invoke_answers by eassumption. reflexivity.
  - erewrite dataset_reused by eassumption.
    erewrite invoke_answers by eassumption. reflexivity.
Qed.

(** The table is missing and the load job is rejected. *)
Lemma failure_inside_handler_is_not_reported_witness :
  create_bigquery_external_table_from_csv "your-gcp-project-id" "raw_csv_data_bq" "data1"
    "gs://your-csv-source-bucket/csv_data/data1.csv" 1
    [Scripted.Succeed; Scripted.Fail (NotFound "404 data1");
     Scripted.Fail (OtherException "BadRequest" "400 could not parse the CSV")]
  = (Raise (OtherException "BadRequest" "400 could not parse the CSV"), [],
     [EvCall (NewBigQueryClient "your-gcp-project-id");
      EvCall (GetTable (main_table_ref None "data1"));
      EvPrint "Creating BigQuery external table data1 from gs://your-csv-source-bucket/csv_data/data1.csv...";
      EvCall (LoadTableFromUri "gs://your-csv-source-bucket/csv_data/data1.csv"
                (main_table_ref None "data1") (load_job_config 1))]).
Proof.
  exact (proj1 (@failure_inside_handler_is_not_reported (list Scripted.reply) _)
           "your-gcp-project-id" "raw_csv_data_bq" "data1"
           "gs://your-csv-source-bucket/csv_data/data1.csv" 1%Z
           _ _ _ _ _ _ eq_refl eq_refl eq_refl).
Defined.

(** X7. A [BaseException] that is not an [Exception] (such as
    [KeyboardInterrupt]) raised by the first request of an operation, or by
    an upload, leaves the function without any message: no [except] clause
    accepts it. *)
Theorem non_exception_is_not_caught {S : Type} `{Service S} (env : option string) :
  (forall project region lake_id dn (s s0 s1 : S) e,
      let parent := "projects/" ++ project ++ "/locations/" ++ region in
      answers s NewDataplexClient (Ok tt) s0 ->
      answers s0 (CreateLake parent lake_id (lake_message dn)) (Raise e) s1 ->
      is_Exception e = false ->
      create_dataplex_lake project region lake_id dn s
      = (Raise e, s1,
         [EvCall NewDataplexClient;
          EvCall (CreateLake parent lake_id (lake_message dn))]))
  /\ (forall project region lake_id zone_id dn (s s0 s1 : S) e,
      let parent := "projects/" ++ project ++ "/locations/" ++ region
                    ++ "/lakes/" ++ lake_id in
      answers s NewDataplexClient (Ok tt) s0 ->
      answers s0 (CreateZone parent zone_id (zone_message region dn)) (Raise e) s1 ->
      is_Exception e = false ->
      create_dataplex_zone project region lake_id zone_id dn s
      = (Raise e, s1,
         [EvCall NewDataplexClient;
          EvCall (CreateZone parent zone_id (zone_message region dn))]))
  /\ (forall project region lake_id zone_id asset_id bucket bq (s s0 s1 : S) e,
      let parent := "projects/" ++ project ++ "/locations/" ++ region
                    ++ "/lakes/" ++ lake_id ++ "/zones/" ++ zone_id in
      answers s NewDataplexClient (Ok tt) s0 ->
      answers s0 (CreateAsset parent asset_id (asset_message project asset_id bucket))
        (Raise e) s1 ->
      is_Exception e = false ->
      create_dataplex_asset project region lake_id zone_id asset_id bucket bq s
      = (Raise e, s1,
         [EvCall NewDataplexClient;
          EvCall (CreateAsset parent asset_id (asset_message project asset_id bucket))]))
  /\ (forall project dataset_id region (s s0 s1 : S) e,
      let dataset := {| dataset_reference := {| ref_project := project;
                                                ref_dataset_id := dataset_id |};
                        dataset_location := Some region |} in
      answers s (NewBigQueryClient project) (Ok tt) s0 ->
      answers s0 (CreateDataset dataset) (Raise e) s1 ->
      is_Exception e = false ->
      create_bigquery_dataset project dataset_id region s
      = (Raise e, s1,
         [EvCall (NewBigQueryClient project); EvCall (CreateDataset dataset)]))
  /\ (forall project dataset_id table uri skip (s s0 s1 : S) e,
      let ref := {| table_dataset := {| ref_project := project;
                                        ref_dataset_id := dataset_id |};
                    table_id := table |} in
      answers s (NewBigQueryClient project) (Ok tt) s0 ->
      answers s0 (GetTable ref) (Raise e) s1 ->
      is_Exception e = false ->
      create_bigquery_external_table_from_csv project dataset_id table uri skip s
      = (Raise e, s1, [EvCall (NewBigQueryClient project); EvCall (GetTable ref)]))
  /\ (forall local bucket blob (s s0 s1 : S) e,
      answers s (NewStorageClient (Some (PROJECT_ID env))) (Ok tt) s0 ->
      answers s0 (BlobUploadFromFilename bucket blob local) (Raise e) s1 ->
      is_Exception e = false ->
      upload_csv_to_gcs env local bucket blob s
      = (Raise e, s1,
         [EvCall (NewStorageClient (Some (PROJECT_ID env)));
          EvCall (BlobUploadFromFilename bucket blob local)])).
Proof.
  repeat apply conj; intros;
    match goal with He : is_Exception ?e = false |- _ => destruct e; try discriminate He end.
  - subst parent. unfold create_dataplex_lake. run_path.
  - subst parent. unfold create_dataplex_zone. run_path.
  - subst parent. unfold create_dataplex_asset. run_path.
  - subst dataset. unfold create_bigquery_dataset. run_path.
  - subst ref. unfold create_bigquery_external_table_from_csv. run_path.
  - unfold upload_csv_to_gcs. run_path.
Qed.

(** The zone request is interrupted from the keyboard. *)
Lemma non_exception_is_not_caught_witness :
  create_dataplex_zone "your-gcp-project-id" "us-central1" "my-csv-lake" "raw-csv-data"
    "Raw CSV Zone" [Scripted.Succeed; Scripted.Fail (BaseOnly "KeyboardInterrupt" "")]
  = (Raise (BaseOnly "KeyboardInterrupt" ""), [],
     [EvCall NewDataplexClient;
      EvCall (CreateZone
                "projects/your-gcp-project-id/locations/us-central1/lakes/my-csv-lake"
                "raw-csv-data" (zone_message "us-central1" "Raw CSV Zone"))]).
Proof.
  destruct (@non_exception_is_not_caught (list Scripted.reply) _ None)
    as (_ & Hzone & _).
  exact (Hzone "your-gcp-project-id" "us-central1" "my-csv-lake" "raw-csv-data"
           "Raw CSV Zone"
           [Scripted.Succeed; Scripted.Fail (BaseOnly "KeyboardInterrupt" "")]
           [Scripted.Fail (BaseOnly "KeyboardInterrupt" "")] []
           (BaseOnly "KeyboardInterrupt" "") eq_refl eq_refl eq_refl).
Defined.

(** X8. [Conflict] raised by the wait on the operation that a creation
    request returned is treated like [Conflict] from the request itself: the
    lake, zone and asset operations report that the resource exists, after
    their ["Creating ..."] line, and return whatever fetching it by name
    returns. *)
Theorem conflict_while_waiting_takes_the_reuse_path {S : Type} `{Service S} :
  (forall project region lake_id dn (s s0 s1 s2 : S) op m,
      let parent := "projects/" ++ project ++ "/locations/" ++ region in
      answers s NewDataplexClient (Ok tt) s0 ->
      answers s0 (CreateLake parent lake_id (lake_message dn)) (Ok op) s1 ->
      answers s1 (LakeOperationResult op 300) (Raise (Conflict m)) s2 ->
      create_dataplex_lake project region lake_id dn s
      = after [EvCall NewDataplexClient;
               EvCall (CreateLake parent lake_id (lake_message dn));
               EvPrint ("Creating lake " ++ lake_id ++ "...");
               EvCall (LakeOperationResult op 300);
               EvPrint ("Lake " ++ lake_id ++ " already exists.")]
          (invoke (GetLake (parent ++ "/lakes/" ++ lake_id)) s2))
  /\ (forall project region lake_id zone_id dn (s s0 s1 s2 : S) op m,
      let parent := "projects/" ++ project ++ "/locations/" ++ region
                    ++ "/lakes/" ++ lake_id in
      answers s NewDataplexClient (Ok tt) s0 ->
      answers s0 (CreateZone parent zone_id (zone_message region dn)) (Ok op) s1 ->
      answers s1 (ZoneOperationResult op 300) (Raise (Conflict m)) s2 ->
      create_dataplex_zone project region lake_id zone_id dn s
      = after [EvCall NewDataplexClient;
               EvCall (CreateZone parent zone_id (zone_message region dn));
               EvPrint ("Creating zone " ++ zone_id ++ "...");
               EvCall (ZoneOperationResult op 300);
               EvPrint ("Zone " ++ zone_id ++ " already exists.")]
          (invoke (GetZone (parent ++ "/zones/" ++ zone_id)) s2))
  /\ (forall project region lake_id zone_id asset_id bucket bq (s s0 s1 s2 : S) op m,
      let parent := "projects/" ++ project ++ "/locations/" ++ region
                    ++ "/lakes/" ++ lake_id ++ "/zones/" ++ zone_id in
      answers s NewDataplexClient (Ok tt) s0 ->
      answers s0 (CreateAsset parent asset_id (asset_message project asset_id bucket))
        (Ok op) s1 ->
      answers s1 (AssetOperationResult op 300) (Raise (Conflict m)) s2 ->
      create_dataplex_asset project region lake_id zone_id asset_id bucket bq s
      = after [EvCall NewDataplexClient;
               EvCall (CreateAsset parent asset_id (asset_message project asset_id bucket));
               EvPrint ("Creating asset " ++ asset_id ++ "...");
               EvCall (AssetOperationResult op 300);
               EvPrint ("Asset " ++ asset_id ++ " already exists.")]
          (invoke (GetAsset (parent ++ "/assets/" ++ asset_id)) s2)).
Proof.
  repeat apply conj; intros.
  - eapply lake_reused_after_wait; eassumption.
  - eapply zone_reused_after_wait; eassumption.
  - eapply asset_reused_after_wait; eassumption.
Qed.

(** The lake request is accepted, the wait reports a conflict. *)
Lemma conflict_while_waiting_takes_the_reuse_path_witness :
  result_of
    (create_dataplex_lake "your-gcp-project-id" "us-central1" "my-csv-lake"
       "My CSV Data Lake"
       [Scripted.Succeed; Scripted.Succeed; Scripted.Fail (Conflict "409 lake")])
  = Ok {| lake_name := "projects/your-gcp-project-id/locations/us-central1/lakes/my-csv-lake";
          lake_display_name := "" |}.
Proof.
  destruct (@conflict_while_waiting_takes_the_reuse_path (list Scripted.reply) _)
    as (Hlake & _ & _).
  rewrite (Hlake "your-gcp-project-id" "us-central1" "my-csv-lake" "My CSV Data Lake"
             [Scripted.Succeed; Scripted.Succeed; Scripted.Fail (Conflict "409 lake")]
             [Scripted.Succeed; Scripted.Fail (Conflict "409 lake")]
             [Scripted.Fail (Conflict "409 lake")] []
             {| operation_name :=
                  "projects/your-gcp-project-id/locations/us-central1/lakes/my-csv-lake" |}
             "409 lake" eq_refl eq_refl eq_refl).
  reflexivity.
Defined.

End EdgePaths.

(* ===================================================================== *)
(** ** The order of the stages of [main] *)
(* ===================================================================== *)

Module OrderFacts.
Import Automate.

Lemma ascend_weaken (k' k : nat) (evs : list event) :
  k' <= k -> phases_ascend k evs = true -> phases_ascend k' evs = true.
Proof.
  intros Hle. induction evs as [|e evs IH]; [reflexivity |].
  cbn [phases_ascend]. destruct (phase e) as [p|]; [| exact IH].
  rewrite !andb_true_iff, !Nat.leb_le. intros [Hk Hrest]. split; [lia | exact Hrest].
Qed.

Lemma ascend_app (k : nat) (a b : list event) :
  forall k', k' <= k ->
  forallb (in_phase k) a = true ->
  phases_ascend k b = true ->
  phases_ascend k' (a ++ b)%list = true.
Proof.
  induction a as [|e a IH]; intros k' Hle Ha Hb.
  - cbn [app]. now apply (ascend_weaken k' k).
  - cbn [forallb] in Ha. apply andb_true_iff in Ha. destruct Ha as [He Ha].
    cbn [app phases_ascend]. unfold in_phase in He.
    destruct (phase e) as [p|].
    + apply Nat.eqb_eq in He. subst p. apply andb_true_iff. split.
      * now apply Nat.leb_le.
      * now apply IH.
    + now apply IH.
Qed.

Lemma in_phase_ascends (k : nat) (a : list event) :
  forallb (in_phase k) a = true -> phases_ascend k a = true.
Proof.
  intros Ha. rewrite <- (app_nil_r a). now apply (ascend_app k a [] k).
Qed.

Section AnyService.
Context {S : Type} `{Service S}.
Variable env : option string.

Lemma ascend_bind {A B} (k k' : nat) (m : M S A) (f : A -> M S B) (s : S) :
  k' <= k ->
  forallb (in_phase k) (events_of (m s)) = true ->
  (forall v s1, phases_ascend k (events_of (f v s1)) = true) ->
  phases_ascend k' (events_of (bind m f s)) = true.
Proof.
  intros Hle Hm Hf. rewrite PauseClaims.events_bind.
  apply (ascend_app k); [exact Hle | exact Hm |].
  destruct (result_of (m s)); [apply Hf | reflexivity].
Qed.

Lemma lake_in_catalog_phase project region lake_id dn (s : S) :
  forallb (in_phase 2) (events_of (create_dataplex_lake project region lake_id dn s)) = true.
Proof. unfold create_dataplex_lake. unfold_run. explore; reflexivity. Qed.

Lemma zone_in_catalog_phase project region lake_id zone_id dn (s : S) :
  forallb (in_phase 2)
    (events_of (create_dataplex_zone project region lake_id zone_id dn s)) = true.
Proof. unfold create_dataplex_zone. unfold_run. explore; reflexivity. Qed.

Lemma asset_in_catalog_phase project region lake_id zone_id asset_id bucket bq (s : S) :
  forallb (in_phase 2)
    (events_of (create_dataplex_asset project region lake_id zone_id asset_id bucket bq s))
  = true.
Proof. unfold create_dataplex_asset. unfold_run. explore; reflexivity. Qed.

Lemma dataset_in_warehouse_phase project dataset_id region (s : S) :
  forallb (in_phase 4) (events_of (create_bigquery_dataset project dataset_id region s))
  = true.
Proof. unfold create_bigquery_dataset. unfold_run. explore; reflexivity. Qed.

Lemma table_in_warehouse_phase project dataset_id table uri skip (s : S) :
  forallb (in_phase 4)
    (events_of (create_bigquery_external_table_from_csv project dataset_id table uri skip s))
  = true.
Proof.
  unfold create_bigquery_external_table_from_csv. unfold_run. explore; reflexivity.
Qed.

Lemma table_loop_in_warehouse_phase uris (s : S) :
  forallb (in_phase 4) (events_of (for_each uris (table_step env) s)) = true.
Proof.
  revert s. induction uris as [|uri uris IH]; intros s; [reflexivity |].
  cbn [for_each]. apply UploadFacts.in_phase_bind; [| intros; apply IH].
  unfold table_step. apply UploadFacts.in_phase_bind;
    [apply table_in_warehouse_phase | reflexivity].
Qed.

Lemma step7_in_warehouse_phase uris (s : S) :
  forallb (in_phase 4) (events_of (main_step7 env uris s)) = true.
Proof.
  unfold main_step7.
  apply UploadFacts.in_phase_bind; [reflexivity | intros _ s1].
  apply UploadFacts.in_phase_bind; [apply table_loop_in_warehouse_phase | intros _ s2].
  reflexivity.
Qed.

Lemma step6_in_warehouse_phase uris (s : S) :
  forallb (in_phase 4) (events_of (main_step6 env uris s)) = true.
Proof.
  unfold main_step6.
  apply UploadFacts.in_phase_bind; [apply dataset_in_warehouse_phase | intros _ s1].
  apply step7_in_warehouse_phase.
Qed.

Lemma step3_ascends uris (s : S) :
  phases_ascend 2 (events_of (main_step3 env uris s)) = true.
Proof.
  unfold main_step3.
  apply (ascend_bind 2); [lia | apply lake_in_catalog_phase | intros _ s1].
  unfold main_step4.
  apply (ascend_bind 2); [lia | apply zone_in_catalog_phase | intros _ s2].
  unfold main_step5.
  apply (ascend_bind 2); [lia | apply asset_in_catalog_phase | intros _ s3].
  apply (ascend_bind 3); [lia | reflexivity | intros _ s4].
  apply (ascend_weaken 3 4); [lia |].
  apply in_phase_ascends, step6_in_warehouse_phase.
Qed.

End AnyService.

(** X9. In every run of [main], whatever the environment answers and
    wherever the run stops, the calls come in stages that never go back:
    the two queries of the local directory, then storage uploads, then
    catalog requests, then the pause, then warehouse requests. *)
Theorem main_stages_never_go_back {S : Type} `{Service S} (env : option string) (s : S) :
  phases_ascend 0 (events_of (main env s)) = true.
Proof.
  unfold main.
  apply (ascend_bind 0); [lia | reflexivity | intros _ s1].
  apply (ascend_bind 0); [lia | | intros present s2].
  { unfold invoke, events_of. destruct (handle _ s1). reflexivity. }
  destruct present; cbn [negb]; [| reflexivity].
  apply (ascend_bind 0); [lia | | intros listing s3].
  { unfold invoke, events_of. destruct (handle _ s2). reflexivity. }
  destruct (filter (fun f => PyStr.endswith f ".csv") listing) as [|f files];
    [reflexivity |].
  apply (ascend_bind 1); [lia | apply UploadFacts.upload_all_in_storage_phase |].
  intros uris s4. apply (ascend_weaken 1 2); [lia | apply step3_ascends].
Qed.

End OrderFacts.

(* ===================================================================== *)
(** ** The closing message and reruns of the table step *)
(* ===================================================================== *)

Module CompletionFacts.
Import Automate OperationPaths.

Section AnyService.
Context {S : Type} `{Service S}.
Variable env : option string.

Lemma silent_bind {A B} (m : M S A) (f : A -> M S B) (s : S) :
  existsb is_completion_message (events_of (m s)) = false ->
  (forall v s1, existsb is_completion_message (events_of (f v s1)) = false) ->
  existsb is_completion_message (events_of (bind m f s)) = false.
Proof.
  intros Hm Hf. rewrite PauseClaims.events_bind, existsb_app, Hm.
  destruct (result_of (m s)); [apply Hf | reflexivity].
Qed.

Lemma announces_bind {A} (m : M S A) (f : A -> M S unit) :
  (forall s, existsb is_completion_message (events_of (m s)) = false) ->
  (forall v, announces_on_success (f v)) ->
  announces_on_success (bind m f).
Proof.
  intros Hm Hf s. specialize (Hm s). unfold bind, events_of, result_of in *.
  destruct (m s) as [[[v|e] s1] ev1]; cbn [fst snd] in *.
  - specialize (Hf v s1). unfold events_of, result_of in Hf.
    destruct (f v s1) as [[r s2] ev2]. cbn [fst snd] in *.
    rewrite existsb_app, Hm. exact Hf.
  - rewrite Hm. discriminate.
Qed.

Lemma silent_upload local bucket blob (s : S) :
  existsb is_completion_message (events_of (upload_csv_to_gcs env local bucket blob s))
  = false.
Proof. unfold upload_csv_to_gcs. unfold_run. explore; reflexivity. Qed.

Lemma silent_upload_all files uris (s : S) :
  existsb is_completion_message (events_of (upload_all env files uris s)) = false.
Proof.
  revert uris s. induction files as [|f files IH]; intros uris s; [reflexivity |].
  cbn [upload_all]. apply silent_bind; [apply silent_upload | intros; apply IH].
Qed.

Lemma silent_lake project region lake_id dn (s : S) :
  existsb is_completion_message
    (events_of (create_dataplex_lake project region lake_id dn s)) = false.
Proof. unfold create_dataplex_lake. unfold_run. explore; reflexivity. Qed.

Lemma silent_zone project region lake_id zone_id dn (s : S) :
  existsb is_completion_message
    (events_of (create_dataplex_zone project region lake_id zone_id dn s)) = false.
Proof. unfold create_dataplex_zone. unfold_run. explore; reflexivity. Qed.

Lemma silent_asset project region lake_id zone_id asset_id bucket bq (s : S) :
  existsb is_completion_message
    (events_of (create_dataplex_asset project region lake_id zone_id asset_id bucket bq s))
  = false.
Proof. unfold create_dataplex_asset. unfold_run. explore; reflexivity. Qed.

Lemma silent_dataset project dataset_id region (s : S) :
  existsb is_completion_message
    (events_of (create_bigquery_dataset project dataset_id region s)) = false.
Proof. unfold create_bigquery_dataset. unfold_run. explore; reflexivity. Qed.

Lemma silent_table project dataset_id table uri skip (s : S) :
  existsb is_completion_message
    (events_of (create_bigquery_external_table_from_csv project dataset_id table uri skip s))
  = false.
Proof.
  unfold create_bigquery_external_table_from_csv. unfold_run. explore; reflexivity.
Qed.

Lemma silent_table_loop uris (s : S) :
  existsb is_completion_message (events_of (for_each uris (table_step env) s)) = false.
Proof.
  revert s. induction uris as [|uri uris IH]; intros s; [reflexivity |].
  cbn [for_each]. apply silent_bind; [| intros; apply IH].
  unfold table_step. apply silent_bind; [apply silent_table | reflexivity].
Qed.

Lemma step3_announces uris : announces_on_success (main_step3 env uris).
Proof.
  unfold main_step3. apply announces_bind; [intros; apply silent_lake | intros _].
  unfold main_step4. apply announces_bind; [intros; apply silent_zone | intros _].
  unfold main_step5. apply announces_bind; [intros; apply silent_asset | intros _].
  apply announces_bind; [reflexivity | intros _].
  unfold main_step6. apply announces_bind; [intros; apply silent_dataset | intros _].
  unfold main_step7. apply announces_bind; [reflexivity | intros _].
  apply announces_bind; [intros; apply silent_table_loop | intros _].
  intros s _. reflexivity.
Qed.

(** One iteration of the table loop over a table that exists. *)
Lemma table_step_skips uri (s : S) t :
  answers s (NewBigQueryClient (PROJECT_ID env)) (Ok tt) s ->
  answers s (GetTable (main_table_ref env
               (PyStr.replace "-" "_" (PyStr.replace ".csv" "" (PyStr.basename uri)))))
    (Ok t) s ->
  table_step env uri s
  = (Ok tt, s,
     [EvCall (NewBigQueryClient (PROJECT_ID env));
      EvCall (GetTable (main_table_ref env
                (PyStr.replace "-" "_" (PyStr.replace ".csv" "" (PyStr.basename uri)))));
      EvPrint ("BigQuery table "
               ++ PyStr.replace "-" "_" (PyStr.replace ".csv" "" (PyStr.basename uri))
               ++ " already exists. Skipping creation.")]).
Proof.
  intros Hclient Hget. unfold table_step.
  rewrite (bind_ok _ _ _ _ _ _
             (table_skipped (PROJECT_ID env) BIGQUERY_DATASET_ID _ uri 1 s s s t Hclient Hget)).
  reflexivity.
Qed.

Lemma table_loop_skips uris (s : S) :
  answers s (NewBigQueryClient (PROJECT_ID env)) (Ok tt) s ->
  (forall uri, In uri uris ->
     exists t,
       answers s (GetTable (main_table_ref env
                    (PyStr.replace "-" "_" (PyStr.replace ".csv" "" (PyStr.basename uri)))))
         (Ok t) s) ->
  exists evs,
    for_each uris (table_step env) s = (Ok tt, s, evs)
    /\ creation_requests evs = [].
Proof.
  intros Hclient. induction uris as [|uri uris IH]; intros Hall.
  - exists []. now split.
  - destruct (Hall uri (or_introl eq_refl)) as [t Hget].
    destruct IH as (evs & Hrest & Hnone); [intros u Hu; apply Hall; now right |].
    eexists. cbn [for_each].
    rewrite (bind_ok _ _ _ _ _ _ (table_step_skips uri s t Hclient Hget)).
    rewrite Hrest. split; [reflexivity |].
    cbn [events_of snd app]. exact Hnone.
Qed.

End AnyService.

(** X13. In every run of [main], the message ["--- Automation Complete ---"]
    is printed only if the run returns normally: a run that raises, at any
    step, never prints it. *)
Theorem completion_message_means_success
    {S : Type} `{Service S} (env : option string) (s : S) :
  existsb is_completion_message (events_of (main env s)) = true ->
  result_of (main env s) = Ok tt.
Proof.
  revert s. change (announces_on_success (main env)). unfold main.
  apply announces_bind; [reflexivity | intros _].
  apply announces_bind.
  { intros s. unfold invoke, events_of. destruct (handle _ s). reflexivity. }
  intros present. destruct present; cbn [negb]; [| intros s _; reflexivity].
  apply announces_bind.
  { intros s. unfold invoke, events_of. destruct (handle _ s). reflexivity. }
  intros listing.
  destruct (filter (fun f => PyStr.endswith f ".csv") listing) as [|f files];
    [intros s _; reflexivity |].
  apply announces_bind; [intros; apply silent_upload_all | intros uris].
  apply step3_announces.
Qed.

Lemma completion_message_means_success_witness :
  result_of (main None Mock.with_local_csvs) = Ok tt.
Proof.
  apply completion_message_means_success. vm_compute. reflexivity.
Defined.

(** X12. If, in a state of the environment, every table of the list is
    found by its lookup and lookups leave that state as it is, step 7 sends
    no load request, leaves the environment unchanged and returns
    normally. *)
Theorem table_step_rerun_loads_nothing
    {S : Type} `{Service S} (env : option string) (uris : list string) (s : S) :
  answers s (NewBigQueryClient (PROJECT_ID env)) (Ok tt) s ->
  (forall uri, In uri uris ->
     exists t,
       answers s (GetTable (main_table_ref env
                    (PyStr.replace "-" "_" (PyStr.replace ".csv" "" (PyStr.basename uri)))))
         (Ok t) s) ->
  result_of (main_step7 env uris s) = Ok tt
  /\ state_of (main_step7 env uris s) = s
  /\ creation_requests (events_of (main_step7 env uris s)) = [].
Proof.
  intros Hclient Hall.
  destruct (table_loop_skips env uris s Hclient Hall) as (evs & Hloop & Hnone).
  unfold main_step7.
  rewrite (bind_ok _ _ s tt s _ eq_refl), (bind_ok _ _ _ _ _ _ Hloop).
  repeat split.
  unfold after, events_of, creation_requests. cbn [fst snd app requests].
  rewrite UploadFacts.requests_app. cbn [requests app].
  rewrite app_nil_r. exact Hnone.
Qed.

(** After one complete run, both tables exist. *)
Lemma table_step_rerun_loads_nothing_witness :
  state_of (main_step7 None
              ["gs://your-csv-source-bucket/csv_data/data1.csv";
               "gs://your-csv-source-bucket/csv_data/data-2.csv"] Mock.provisioned)
  = Mock.provisioned.
Proof.
  refine (proj1 (proj2 (table_step_rerun_loads_nothing None _ Mock.provisioned eq_refl _))).
  intros uri [<- | [<- | []]]; eexists; vm_compute; reflexivity.
Defined.

(** X11. Whatever the environment answers, the table function requests
    nothing but the lookup of its table, one load job from the given URI into
    that table (CSV, the given number of leading rows skipped, schema
    detection on, no bad record tolerated) and the wait on a load job. *)
Theorem table_function_only_looks_up_and_loads {S : Type} `{Service S}
    (project dataset_id table uri : string) (skip : Z) (s : S) (c : call) :
  let ref := {| table_dataset := {| ref_project := project;
                                    ref_dataset_id := dataset_id |};
                table_id := table |} in
  In c (requests (events_of
          (create_bigquery_external_table_from_csv project dataset_id table uri skip s))) ->
  c = GetTable ref
  \/ c = LoadTableFromUri uri ref
           {| source_format := CSV; skip_leading_rows := skip; autodetect := true;
              max_bad_records := 0 |}
  \/ exists job, c = LoadJobResult job.
Proof.
  intros ref. subst ref.
  unfold create_bigquery_external_table_from_csv, load_job_config. unfold_run.
  explore; cbn [requests is_client_construction app In]; intros Hin;
    repeat match type of Hin with
           | _ \/ _ => destruct Hin as [Hin | Hin]
           | False => contradiction
           end;
    subst c; eauto.
Qed.

Lemma table_function_only_looks_up_and_loads_witness :
  let ref := main_table_ref None "data1" in
  let uri := "gs://your-csv-source-bucket/csv_data/data1.csv" in
  let load := LoadTableFromUri uri ref (load_job_config 1) in
  load = GetTable ref \/ load = load \/ exists job, load = LoadJobResult job.
Proof.
  apply (table_function_only_looks_up_and_loads "your-gcp-project-id" "raw_csv_data_bq"
           "data1" "gs://your-csv-source-bucket/csv_data/data1.csv" 1%Z Mock.empty).
  vm_compute. tauto.
Defined.

End CompletionFacts.

(* ===================================================================== *)
(** ** Partial runs of the conversion script *)
(* ===================================================================== *)

Module ConvertOrder.
Import Convert.

Section AnyService.
Context {S : Type} `{Service S}.

Lemma convert_file_prefix (file : string) (s : S) :
  exists rest,
    computed_steps file = (map step_of (events_of (convert_file file s)) ++ rest)%list
    /\ (result_of (convert_file file s) = Ok tt <-> rest = []).
Proof.
  unfold convert_file, computed_steps. unfold_run.
  explore;
    cbn [map step_of app];
    eexists; (split; [reflexivity | split; intros Hx; try discriminate Hx; reflexivity]).
Qed.

Lemma loop_prefix (files : list string) (s : S) :
  exists rest,
    flat_map computed_steps files
    = (map step_of (events_of (for_each files convert_file s)) ++ rest)%list
    /\ (result_of (for_each files convert_file s) = Ok tt <-> rest = []).
Proof.
  revert s. induction files as [|file files IH]; intros s.
  - exists []. split; [reflexivity | now split].
  - destruct (convert_file_prefix file s) as (rest1 & Hsteps1 & Hdone1).
    cbn [for_each flat_map]. unfold bind, events_of, result_of in *.
    destruct (convert_file file s) as [[[[]|e] s1] ev1]; cbn [fst snd] in *.
    + destruct (IH s1) as (rest2 & Hsteps2 & Hdone2).
      unfold events_of, result_of in *.
      destruct (for_each files convert_file s1) as [[r s2] ev2]. cbn [fst snd] in *.
      exists rest2. split; [| exact Hdone2].
      rewrite Hsteps1, (proj1 Hdone1 eq_refl), app_nil_r, Hsteps2, map_app.
      now rewrite app_assoc.
    + exists (rest1 ++ flat_map computed_steps files)%list. split.
      * rewrite Hsteps1. now rewrite app_assoc.
      * split; [discriminate |]. intros Hnil. apply app_eq_nil in Hnil.
        destruct Hnil as [Hnil _]. apply Hdone1 in Hnil. discriminate Hnil.
Qed.

End AnyService.

(** X10. In every run of the conversion script, complete or not, the steps
    performed are an initial part of the full sequence (for each of the
    eighteen names in order: download, parse, convert, write, upload,
    report).  So no file is uploaded before it was downloaded and written, no
    key is used twice, and a later file is never touched before an earlier
    one is done.  The part left over is empty exactly when the run returns
    normally; the script catches nothing. *)
Theorem conversion_steps_are_an_initial_part {S : Type} `{Service S} (s : S) :
  exists rest,
    Other :: flat_map mirrored_steps csv_files
    = (map step_of (events_of (script s)) ++ rest)%list
    /\ (result_of (script s) = Ok tt <-> rest = []).
Proof.
  rewrite <- ConvertFacts.computed_steps_mirrored.
  unfold script, bind, events_of, result_of.
  destruct (invoke (NewStorageClient None) s) as [[[[]|e] s1] ev1] eqn:Hclient;
    apply invoke_inv in Hclient; destruct Hclient as [_ ->]; cbn [fst snd].
  - destruct (loop_prefix csv_files s1) as (rest & Hsteps & Hdone).
    unfold events_of, result_of in *.
    destruct (for_each csv_files convert_file s1) as [[r s2] ev2]. cbn [fst snd] in *.
    exists rest. split; [| exact Hdone].
    cbn [app map step_of]. now rewrite Hsteps.
  - exists (flat_map computed_steps csv_files). split; [reflexivity |].
    split; [discriminate |]. cbn [csv_files flat_map computed_steps app]. discriminate.
Qed.

End ConvertOrder.

(* ===================================================================== *)
(** ** The requests an operation can make *)
(* ===================================================================== *)

Module RequestFacts.
Import Automate.

(** Read the membership of a call in an explicit list of requests. *)
Ltac pick_request Hin c :=
  cbn [requests is_client_construction app In] in Hin;
  repeat match type of Hin with
         | _ \/ _ => destruct Hin as [Hin | Hin]
         | False => contradiction
         end;
  subst c; eauto.

(** X14. Whatever the environment answers, the lake, zone and asset
    operations request nothing but the creation of their resource under its
    parent, a wait of 300 seconds on an operation, and the fetch of that same
    resource by its full name; the dataset operation requests nothing but the
    creation of the dataset, located in the given region, and its fetch. *)
Theorem operations_touch_only_their_resource {S : Type} `{Service S} :
  (forall project region lake_id dn (s : S) c,
      let parent := "projects/" ++ project ++ "/locations/" ++ region in
      In c (requests (events_of (create_dataplex_lake project region lake_id dn s))) ->
      c = CreateLake parent lake_id (lake_message dn)
      \/ (exists op, c = LakeOperationResult op 300)
      \/ c = GetLake (parent ++ "/lakes/" ++ lake_id))
  /\ (forall project region lake_id zone_id dn (s : S) c,
      let parent := "projects/" ++ project ++ "/locations/" ++ region
                    ++ "/lakes/" ++ lake_id in
      In c (requests (events_of (create_dataplex_zone project region lake_id zone_id dn s))) ->
      c = CreateZone parent zone_id (zone_message region dn)
      \/ (exists op, c = ZoneOperationResult op 300)
      \/ c = GetZone (parent ++ "/zones/" ++ zone_id))
  /\ (forall project region lake_id zone_id asset_id bucket bq (s : S) c,
      let parent := "projects/" ++ project ++ "/locations/" ++ region
                    ++ "/lakes/" ++ lake_id ++ "/zones/" ++ zone_id in
      In c (requests
              (events_of
                 (create_dataplex_asset project region lake_id zone_id asset_id bucket bq s))) ->
      c = CreateAsset parent asset_id (asset_message project asset_id bucket)
      \/ (exists op, c = AssetOperationResult op 300)
      \/ c = GetAsset (parent ++ "/assets/" ++ asset_id))
  /\ (forall project dataset_id region (s : S) c,
      let ref := {| ref_project := project; ref_dataset_id := dataset_id |} in
      In c (requests (events_of (create_bigquery_dataset project dataset_id region s))) ->
      c = CreateDataset {| dataset_reference := ref; dataset_location := Some region |}
      \/ c = GetDataset ref).
Proof.
  repeat apply conj.
  - intros project region lake_id dn s c parent. subst parent.
    unfold create_dataplex_lake. unfold_run.
    explore; intros Hin; pick_request Hin c.
  - intros project region lake_id zone_id dn s c parent. subst parent.
    unfold create_dataplex_zone. unfold_run.
    explore; intros Hin; pick_request Hin c.
  - intros project region lake_id zone_id asset_id bucket bq s c parent. subst parent.
    unfold create_dataplex_asset. unfold_run.
    explore; intros Hin; pick_request Hin c.
  - intros project dataset_id region s c ref. subst ref.
    unfold create_bigquery_dataset. unfold_run.
    explore; intros Hin; pick_request Hin c.
Qed.

(** The fetch of a rerun over the provisioned cloud. *)
Lemma operations_touch_only_their_resource_witness :
  let parent := "projects/your-gcp-project-id/locations/us-central1" in
  let fetch := GetLake (parent ++ "/lakes/my-csv-lake") in
  fetch = CreateLake parent "my-csv-lake" (lake_message "My CSV Data Lake")
  \/ (exists op, fetch = LakeOperationResult op 300)
  \/ fetch = fetch.
Proof.
  destruct (@operations_touch_only_their_resource Mock.cloud _) as (Hlake & _).
  apply (Hlake "your-gcp-project-id" "us-central1" "my-csv-lake" "My CSV Data Lake"
           Mock.provisioned).
  vm_compute. tauto.
Defined.

End RequestFacts.
